(** * LFS harmonizer (v8): resolver, translators, release processor, aggregator

    A shallow embedding of [lfs_harmonizer_complete_v8.py].

    Modelling conventions
    - A pandas cell is [NA], a number or a string.  Floating point numbers are
      modelled as exact rationals ([Q]); NaN is [NA] / [None]; infinities are
      not represented.
    - A Python [int] is a [Z]; counts are [Z] as well, so that subtraction is
      the one of Python.
    - [dict]s are stdpp [gmap]s.  The order of the columns of a data frame and
      of the keys of a dict is not represented where the code does not depend
      on it.
    - A string is a sequence of code points below 256; text with other
      characters is not represented.  Within this range [\d] is an ASCII
      digit and the white space of [str.strip] is the one of [Str.is_space].
    - [pd.to_numeric] applied to a string is a parameter of the development. *)

From Stdlib Require Import ZArith QArith Qabs String Ascii List Lia.
From stdpp Require Import gmap strings list fin_maps.

Local Open Scope string_scope.
Local Open Scope list_scope.
Local Open Scope Z_scope.

(* ===================================================================== *)
(** * Strings: the few [str] methods the code uses                        *)
(* ===================================================================== *)

Module Str.

(** [c.upper()] of one character.  The letters a-z and the accented letters
    224-254 (but the division sign 247) move down by 32 and the sharp s (223)
    becomes SS.  The capitals of the micro sign (181) and of y with diaeresis
    (255) lie above 255; the two letters are kept, which changes no
    comparison of upper-cased strings and no search for an ASCII text. *)
Definition upper_char (c : ascii) : string :=
  let n := N_of_ascii c in
  if ((97 <=? n) && (n <=? 122))%N then String (ascii_of_N (n - 32)) ""
  else if ((224 <=? n) && (n <=? 254) && negb (n =? 247))%N
       then String (ascii_of_N (n - 32)) ""
       else if (n =? 223)%N then "SS"
            else String c "".

(** [s.upper()] *)
Fixpoint upper (s : string) : string :=
  match s with
  | "" => ""
  | String c s' => upper_char c +:+ upper s'
  end.

(** White space of [str.strip()]: tab to carriage return, the four
    separators 28-31, the space, the next-line control (133) and the
    no-break space (160). *)
Definition is_space (c : ascii) : bool :=
  let n := N_of_ascii c in
  (((9 <=? n) && (n <=? 13)) || ((28 <=? n) && (n <=? 32))
   || (n =? 133) || (n =? 160))%N.

Fixpoint lstrip (s : string) : string :=
  match s with
  | "" => ""
  | String c s' => if is_space c then lstrip s' else s
  end.

Definition rstrip (s : string) : string := String.rev (lstrip (String.rev s)).

(** [s.strip()] *)
Definition strip (s : string) : string := rstrip (lstrip s).

(** [p] is a prefix of [s]. *)
Fixpoint starts_with (p s : string) : bool :=
  match p, s with
  | "", _ => true
  | String a p', String b s' => if Ascii.eqb a b then starts_with p' s' else false
  | String _ _, "" => false
  end.

(** [p in s] *)
Fixpoint contains (p s : string) : bool :=
  starts_with p s ||
  match s with
  | "" => false
  | String _ s' => contains p s'
  end.

(** [\d] within ASCII, with the digit's value. *)
Definition digit (c : ascii) : option Z :=
  let n := N_of_ascii c in
  if ((48 <=? n) && (n <=? 57))%N then Some (Z.of_N (n - 48)) else None.

(** [name.rfind('.')], as a position counted from the left. *)
Fixpoint rfind_dot (s : string) (pos : nat) (found : option nat) : option nat :=
  match s with
  | "" => found
  | String c s' =>
      rfind_dot s' (S pos) (if Ascii.eqb c "."%char then Some pos else found)
  end.

(** [Path(filepath).stem] of a file name: the name without its last suffix;
    a dot in first or last position does not start a suffix. *)
Definition stem (name : string) : string :=
  match rfind_dot name 0 None with
  | Some i =>
      if ((0 <? i) && (i <? String.length name - 1))%nat
      then substring 0 i name else name
  | None => name
  end.

End Str.

(* ===================================================================== *)
(** * Data frames                                                         *)
(* ===================================================================== *)

(** One cell of a raw column. *)
Inductive cell : Type :=
  | NA
  | Num (q : Q)
  | Str (s : string).

(** A raw column: [dtype_object] is [col.dtype == object]. *)
Record Series : Type := mkSeries {
  dtype_object : bool;
  values : list cell
}.

(** A numeric column: the result of [clean_column] and of translation. *)
Abbreviation NumSeries := (list (option Q)).

(** The raw table of a release, as [read_csv] returns it. *)
Record DataFrame : Type := mkDataFrame {
  n_rows : nat;
  columns : list (string * Series)
}.

(** Every column of a data frame has one cell per row. *)
Definition df_wf (df : DataFrame) : bool :=
  forallb (fun c => Nat.eqb (length (values (snd c))) (n_rows df)) (columns df).

(** [df[name]]: the column of that exact name. *)
Fixpoint getitem (cols : list (string * Series)) (name : string) : option Series :=
  match cols with
  | [] => None
  | (n, s) :: rest => if String.eqb n name then Some s else getitem rest name
  end.

(** [{c.upper(): c for c in df.columns}]: a later column of the same
    upper-cased name replaces an earlier one. *)
Definition col_map_upper_of (df : DataFrame) : gmap string string :=
  fold_left (fun m c => <[Str.upper (fst c) := fst c]> m) (columns df) ∅.

Definition is_na (c : cell) : bool :=
  match c with NA => true | _ => false end.

(** [col.dropna()] *)
Definition dropna (l : list cell) : list cell :=
  List.filter (fun c => negb (is_na c)) l.

(** [str(x).strip() != ''] for a cell of an object column; the text of a
    number is never blank. *)
Definition non_whitespace (c : cell) : bool :=
  match c with
  | Str s => negb (String.eqb (Str.strip s) "")
  | Num _ => true
  | NA => true
  end.

(** [int(col.notna().sum())] *)
Definition notna_raw (col : Series) : Z :=
  Z.of_nat (length (dropna (values col))).

Definition notna_count (col : NumSeries) : Z :=
  Z.of_nat (length (List.filter (fun v => match v with Some _ => true | None => false end) col)).

(* ===================================================================== *)
(** * Configuration: priority lists and output schema                     *)
(* ===================================================================== *)

Definition COLUMN_PRIORITY : gmap string (list string) :=
  list_to_map [
    ("PUFREG", ["PUFREG"; "CREG"; "REG"]);
    ("PUFSVYYR", ["PUFSVYYR"; "SVYYR"; "CYEAR"]);
    ("PUFSVYMO", ["PUFSVYMO"; "SVYMO"; "CMONTH"]);
    ("PUFHHNUM", ["PUFHHNUM"; "HHNUM"]);
    ("PUFPSU", ["PUFPSU"; "PSU"; "PSU_NO"; "STRATUM"]);
    ("PUFHHSIZE", ["PUFHHSIZE"; "HHID"]);
    ("PUFRPL", ["PUFRPL"; "CRPM"]);
    ("PUFPWGTPRV", ["PUFPWGTPRV"; "PUFPWGT"; "PUFPWGTFIN"; "CFWGT"; "FWGT"; "PWGT"]);
    ("PUFC01_LNO", ["PUFC01_LNO"; "C101_LNO"; "CC101_LNO"; "C04_LNO"; "A01_LNO"]);
    ("PUFC03_REL", ["PUFC03_REL"; "C05_REL"; "CC05_REL"; "C03_NEWMEM"; "CC03_NEWMEM"]);
    ("PUFC04_SEX", ["PUFC04_SEX"; "C06_SEX"; "CC06_SEX"]);
    ("PUFC05_AGE", ["PUFC05_AGE"; "C07_AGE"; "CC07_AGE"]);
    ("PUFC06_MSTAT", ["PUFC06_MSTAT"; "C08_MSTAT"; "C08_MS"; "CC08_MSTAT"; "CC08_MS"]);
    ("PUFC07_GRADE", ["PUFC07_GRADE"; "J12C09_GRADE"; "C09_GRD"; "C09_GRADE"; "CC09_GRADE"]);
    ("PUFC08_CURSCH", ["PUFC08_CURSCH"; "A02_CURSCH"; "A02_CSCH"]);
    ("PUFC09_GRADTECH", ["PUFC09_GRADTECH"; "J12C11_GRADTECH"; "J12C11COURSE"]);
    ("PUFC10_CONWR", ["PUFC10_CONWR"; "PUFC08_CONWR"; "C10_CONWR"; "C10_CNWR"; "CC10_CONWR"]);
    ("PUFC11_WORK", ["PUFC11_WORK"; "PUFC09_WORK"; "C13_WORK"; "CC13_WORK"; "CC01_WORK"; "B01_WORK"]);
    ("PUFC12_JOB", ["PUFC12_JOB"; "PUFC10_JOB"; "C14_JOB"; "CC14_JOB"; "CC02_JOB"; "B02_JOB"]);
    ("PUFNEWEMPSTAT", ["PUFNEWEMPSTAT"; "NEWEMPSTAT"; "CEMPST1"; "CEMPST2"; "NEWEMPST"]);
    ("PUFC14_PROCC", ["PUFC14_PROCC"; "PUFC13_PROCC"; "C16_PROCC"; "C16_PROC"; "CC16_PROCC";
                      "C16F2_PROCC"; "C16L2_PROCC"; "CC12_USOCC"; "J01_USOCC"; "J01_USOC"]);
    ("PUFC16_PKB", ["PUFC16_PKB"; "PUFC15_PKB"; "C18_PKB"; "CC18_PKB";
                    "C18F2_PKB"; "C18L2_PKB"; "CC06_IND"; "J03_OKB"]);
    ("PUFC17_NATEM", ["PUFC17_NATEM"; "PUFC16_NATEM"; "C20_NATEM"; "C20_NTEM"; "CC20_NATEM"]);
    ("PUFC18_PNWHRS", ["PUFC18_PNWHRS"; "PUFC17_PNWHRS"; "C21_PNWHRS"; "C21_PWHR"; "CC21_PNWHRS"; "CC18_PNWHRS"]);
    ("PUFC19_PHOURS", ["PUFC19_PHOURS"; "PUFC18_PHOURS"; "C22_PHOURS"; "C22_PHRS"; "CC22_PHOURS"]);
    ("PUFC20_PWMORE", ["PUFC20_PWMORE"; "PUFC19_PWMORE"; "C23_PWMORE"; "C23_PWMR"; "CC23_PWMORE"]);
    ("PUFC21_PLADDW", ["PUFC21_PLADDW"; "PUFC20_PLADDW"; "C24_PLADDW"; "C24_PLAW"; "CC24_PLADDW"]);
    ("PUFC22_PFWRK", ["PUFC22_PFWRK"; "PUFC20B_FTWORK"; "C25_PFWRK"; "C25_PFWK"; "CC25_PFWRK"]);
    ("PUFC23_PCLASS", ["PUFC23_PCLASS"; "PUFC21_PCLASS"; "C19_PCLASS"; "C19PCLAS"; "CC19_PCLASS"]);
    ("PUFC24_PBASIS", ["PUFC24_PBASIS"; "C26_PBASIS"; "C26_PBIS"; "CC26_PBASIS"]);
    ("PUFC25_PBASIC", ["PUFC25_PBASIC"; "C27_PBASIC"; "C27_PBSC"; "CC27_PBASIC"; "C36_OBASIC"; "C36_OBIC"]);
    ("PUFC26_OJOB", ["PUFC26_OJOB"; "PUFC22_OJOB"; "C28_OJOB"; "CC28_OJOB"]);
    ("PUFC27_NJOBS", ["PUFC27_NJOBS"; "A03_JOBS"]);
    ("PUFC28_THOURS", ["PUFC28_THOURS"; "PUFC23_THOURS"; "A04_THOURS"; "A04_THRS"]);
    ("PUFC29_WWM48H", ["PUFC29_WWM48H"; "PUFC24_WWM48H"; "A05_RWM48H"; "A05_R48H"]);
    ("PUFC30_LOOKW", ["PUFC30_LOOKW"; "PUFC25_LOOKW"; "C38_LOOKW"; "C38_LOKW"; "CC38_LOOKW"; "CC30_LOOKW"]);
    ("PUFC31_FLWRK", ["PUFC31_FLWRK"; "PUFC25B_FTWORK"; "C41_FLWRK"; "C41_FLWK"; "CC41_FLWRK"]);
    ("PUFC32_JOBSM", ["PUFC32_JOBSM"; "C39_JOBSM"; "C39_JBSM"; "CC39_JOBSM"; "CC32_JOBSM"]);
    ("PUFC33_WEEKS", ["PUFC33_WEEKS"; "C40_WEEKS"; "C40_WKS"; "CC40_WEEKS"; "CC33_WEEKS"]);
    ("PUFC34_WYNOT", ["PUFC34_WYNOT"; "PUFC26_WYNOT"; "C42_WYNOT"; "C42_WYNT"; "CC42_WYNOT"]);
    ("PUFC35_LTLOOKW", ["PUFC35_LTLOOKW"; "A06_LTLOOKW"; "A06_LLKW"; "CC35_LTLOOKW"]);
    ("PUFC36_AVAIL", ["PUFC36_AVAIL"; "PUFC27_AVAIL"; "C37_AVAIL"; "C37_AVIL"; "CC37_AVAIL"; "CC36_AVAIL"]);
    ("PUFC37_WILLING", ["PUFC37_WILLING"; "A07_WILLING"; "A07_WLNG"]);
    ("PUFC38_PREVJOB", ["PUFC38_PREVJOB"; "PUFC28_PREVJOB"; "C43_LBEF"; "CC43_LBEF"]);
    ("PUFC39_YEAR", ["PUFC39_YEAR"; "PUFC29_YEAR"]);
    ("PUFC39_MONTH", ["PUFC39_MONTH"; "PUFC29_MONTH"]);
    ("PUFC41_POCC", ["PUFC41_POCC"; "PUFC40_POCC"; "PUFC31_POCC"; "C45_POCC"; "CC45_POCC";
                     "C45F2_POCC"; "C45L2_POCC"; "CC10_POCC"]);
    ("PUFC43_QKB", ["PUFC43_QKB"; "PUFC33_QKB"; "A09_PQKB"; "A09F2_PQKB"; "A09L2_PQKB"; "PQKB"; "QKB"])
  ].

Definition OUTPUT_SCHEMA : list string := [
  "PUFREG"; "PUFSVYYR"; "PUFSVYMO"; "PUFHHNUM"; "PUFPSU"; "PUFHHSIZE"; "PUFRPL";
  "PUFPWGTPRV";
  "PUFC01_LNO"; "PUFC03_REL"; "PUFC04_SEX"; "PUFC05_AGE"; "PUFC06_MSTAT";
  "PUFC07_GRADE"; "PUFC08_CURSCH"; "PUFC09_GRADTECH";
  "PUFC10_CONWR"; "PUFC11_WORK"; "PUFC12_JOB"; "PUFNEWEMPSTAT";
  "PUFC14_PROCC"; "PUFC16_PKB"; "PUFC17_NATEM";
  "PUFC18_PNWHRS"; "PUFC19_PHOURS";
  "PUFC20_PWMORE"; "PUFC21_PLADDW"; "PUFC22_PFWRK"; "PUFC23_PCLASS";
  "PUFC24_PBASIS"; "PUFC25_PBASIC";
  "PUFC26_OJOB";
  "PUFC27_NJOBS"; "PUFC28_THOURS"; "PUFC29_WWM48H";
  "PUFC30_LOOKW"; "PUFC31_FLWRK"; "PUFC32_JOBSM"; "PUFC33_WEEKS";
  "PUFC34_WYNOT"; "PUFC35_LTLOOKW"; "PUFC36_AVAIL"; "PUFC37_WILLING";
  "PUFC38_PREVJOB"; "PUFC39_YEAR"; "PUFC39_MONTH"; "PUFC41_POCC"; "PUFC43_QKB"
].

(* ===================================================================== *)
(** * Column resolver                                                     *)
(* ===================================================================== *)

(** [COLUMN_PRIORITY.get(target, [target])] *)
Definition candidates (target : string) : list string :=
  default [target] (COLUMN_PRIORITY !! target).

(** The test of [get_column] on one column: some cell is not missing and, for
    an object column, some non-missing cell is not blank. *)
Definition populated (col : Series) : bool :=
  let non_empty := dropna (values col) in
  if (0 <? length non_empty)%nat then
    if dtype_object col then
      (0 <? length (List.filter non_whitespace non_empty))%nat
    else true
  else false.

(** The loop of [get_column] over the priority list.  A name stored in
    [col_map_upper] is a column of [df], so [df[...]] does not raise; the
    model skips the variant in that unreachable case. *)
Fixpoint get_column_loop (df : DataFrame) (col_map_upper : gmap string string)
    (srcs : list string) : option (Series * string) :=
  match srcs with
  | [] => None
  | src :: rest =>
      match col_map_upper !! Str.upper src with
      | Some name =>
          match getitem (columns df) name with
          | Some col =>
              if populated col then Some (col, src)
              else get_column_loop df col_map_upper rest
          | None => get_column_loop df col_map_upper rest
          end
      | None => get_column_loop df col_map_upper rest
      end
  end.

Definition get_column (df : DataFrame) (target : string)
    (col_map_upper : gmap string string) : option (Series * string) :=
  get_column_loop df col_map_upper (candidates target).

(* ===================================================================== *)
(** * Value translators                                                   *)
(* ===================================================================== *)

(** [int(val)] of a finite float: truncation towards zero. *)
Definition int_of_float (q : Q) : Z := Z.quot (Qnum q) (Zpos (Qden q)).

(** [safe_int] on a cell of a cleaned column ([safe_numeric] is the identity
    on floats and keeps NaN). *)
Definition safe_int (x : option Q) : option Z :=
  match x with
  | None => None
  | Some q => Some (int_of_float q)
  end.

(** [code in [...]] *)
Definition code_in (code : Z) (l : list Z) : bool := existsb (Z.eqb code) l.

Definition MSTAT_2010 : gmap Z Z := list_to_map [(1, 1); (2, 2); (3, 4); (4, 6); (5, 8)].
Definition MSTAT_2014 : gmap Z Z := list_to_map [(1, 1); (2, 2); (3, 4); (4, 6); (5, 8); (6, 7)].
Definition MSTAT_2023 : gmap Z Z := list_to_map [(1, 1); (2, 2); (3, 4); (4, 6); (5, 7); (6, 8)].

Definition translate_mstat (code : option Q) (year : Z) : option Z :=
  match safe_int code with
  | None => None
  | Some code =>
      if year <=? 2010 then MSTAT_2010 !! code
      else if year <=? 2014 then MSTAT_2014 !! code
      else if year <=? 2023 then MSTAT_2023 !! code
      else Some code
  end.

(** The table of the elementary grades in the 2012-2016 band of
    [translate_grade]. *)
Definition GRADE_2016_ELEM : gmap Z Z :=
  list_to_map [(210, 10011); (220, 10012); (230, 10013); (240, 10014); (250, 10015); (260, 10016)].

Definition translate_grade (code : option Q) (year : Z) : option Z :=
  match safe_int code with
  | None => None
  | Some code =>
      if year <=? 2011 then
        if code =? 0 then Some 0
        else if code =? 1 then Some 10012
        else if code =? 2 then Some 10018
        else if code =? 3 then Some 24012
        else if code =? 4 then Some 35011
        else if code =? 5 then Some 54011
        else if (60 <=? code) && (code <=? 68) then Some 55011
        else if (70 <=? code) && (code <=? 76) then Some 64011
        else None
      else if year <=? 2016 then
        if code =? 0 then Some 0
        else if code =? 10 then Some 2000
        else if (210 <=? code) && (code <=? 260) then Some (default 10012 (GRADE_2016_ELEM !! code))
        else if code =? 270 then Some 10017
        else if code =? 280 then Some 10018
        else if (310 <=? code) && (code <=? 340) then Some (24011 + (code - 310) / 10)
        else if code =? 350 then Some 35011
        else if (410 <=? code) && (code <=? 499) then Some 44011
        else if (510 <=? code) && (code <=? 559) then Some 54011
        else if (560 <=? code) && (code <=? 599) then Some 55011
        else if (610 <=? code) && (code <=? 699) then Some 64011
        else None
      else if year <=? 2018 then
        if code =? 0 then Some 0
        else if code_in code [1; 2; 10] then Some 2000
        else if (110 <=? code) && (code <=? 160) then Some (10011 + (code - 110) / 10)
        else if code_in code [170; 180; 191; 192] then Some 10018
        else if (210 <=? code) && (code <=? 240) then Some (24011 + (code - 210) / 10)
        else if code =? 250 then Some 24015
        else if (310 <=? code) && (code <=? 320) then Some 34011
        else if code =? 350 then Some 35011
        else if (410 <=? code) && (code <=? 499) then Some 44011
        else if (510 <=? code) && (code <=? 559) then Some 54011
        else if (560 <=? code) && (code <=? 599) then Some 55011
        else if (610 <=? code) && (code <=? 699) then Some 64011
        else None
      else if year <=? 2022 then
        if (0 <=? code) && (code <=? 1000) then Some 0
        else if code =? 2000 then Some 2000
        else if (10011 <=? code) && (code <=? 64011) then Some code
        else None
      else Some code
  end.

(** The translators that only check a set or a range of codes. *)
Definition keep_if (ok : Z -> bool) (code : option Q) : option Z :=
  match safe_int code with
  | None => None
  | Some code => if ok code then Some code else None
  end.

Definition translate_pclass (code : option Q) (year : Z) : option Z :=
  keep_if (fun c => code_in c [0; 1; 2; 3; 4; 5; 6]) code.

Definition translate_natem (code : option Q) (year : Z) : option Z :=
  keep_if (fun c => code_in c [1; 2; 3]) code.

Definition translate_pbasis (code : option Q) (year : Z) : option Z :=
  keep_if (fun c => code_in c [0; 1; 2; 3; 4; 5; 6; 7]) code.

Definition translate_wynot (code : option Q) (year : Z) : option Z :=
  match safe_int code with
  | None => None
  | Some code =>
      if year <? 2021 then
        if code =? 6 then Some 61
        else if code_in code [0; 1; 2; 3; 4; 5; 7; 8; 9] then Some code else None
      else Some code
  end.

Definition translate_conwr (code : option Q) (year : Z) : option Z :=
  keep_if (fun c => code_in c [1; 2; 3; 4; 5]) code.

Definition translate_yesno (code : option Q) (year : Z) : option Z :=
  keep_if (fun c => code_in c [1; 2]) code.

Definition translate_rel (code : option Q) (year : Z) : option Z :=
  keep_if (fun c => (1 <=? c) && (c <=? 26)) code.

(** The nine translator functions, as the values of [TRANSLATION_MAP]. *)
Inductive Translator : Type :=
  | T_rel | T_mstat | T_grade | T_conwr | T_natem
  | T_yesno | T_pclass | T_pbasis | T_wynot.

Definition translate (t : Translator) : option Q -> Z -> option Z :=
  match t with
  | T_rel => translate_rel
  | T_mstat => translate_mstat
  | T_grade => translate_grade
  | T_conwr => translate_conwr
  | T_natem => translate_natem
  | T_yesno => translate_yesno
  | T_pclass => translate_pclass
  | T_pbasis => translate_pbasis
  | T_wynot => translate_wynot
  end.

Definition TRANSLATION_MAP : gmap string Translator :=
  list_to_map [
    ("PUFC03_REL", T_rel); ("PUFC06_MSTAT", T_mstat); ("PUFC07_GRADE", T_grade);
    ("PUFC10_CONWR", T_conwr); ("PUFC17_NATEM", T_natem);
    ("PUFC20_PWMORE", T_yesno); ("PUFC21_PLADDW", T_yesno);
    ("PUFC22_PFWRK", T_yesno); ("PUFC23_PCLASS", T_pclass); ("PUFC24_PBASIS", T_pbasis);
    ("PUFC26_OJOB", T_yesno); ("PUFC30_LOOKW", T_yesno); ("PUFC31_FLWRK", T_yesno);
    ("PUFC34_WYNOT", T_wynot); ("PUFC36_AVAIL", T_yesno); ("PUFC37_WILLING", T_yesno);
    ("PUFC38_PREVJOB", T_yesno); ("PUFC11_WORK", T_yesno); ("PUFC12_JOB", T_yesno)
  ].

(** The era bands of a translator, read off its chain of tests on [year]:
    closed intervals, [None] for an open end. *)
Definition era_bands (t : Translator) : list (option Z * option Z) :=
  match t with
  | T_mstat =>
      [(None, Some 2010); (Some 2011, Some 2014); (Some 2015, Some 2023); (Some 2024, None)]
  | T_grade =>
      [(None, Some 2011); (Some 2012, Some 2016); (Some 2017, Some 2018);
       (Some 2019, Some 2022); (Some 2023, None)]
  | T_wynot => [(None, Some 2020); (Some 2021, None)]
  | _ => [(None, None)]
  end.

Definition in_band (b : option Z * option Z) (year : Z) : bool :=
  match fst b with Some lo => lo <=? year | None => true end &&
  match snd b with Some hi => year <=? hi | None => true end.


(* ===================================================================== *)
(** * Rounding and percentages                                            *)
(* ===================================================================== *)

(** Rounding of a rational to the nearest integer, ties to even. *)
Definition round_half_even (q : Q) : Z :=
  let n := Qnum q in
  let d := Zpos (Qden q) in
  let f := n / d in
  let r := n mod d in
  if 2 * r <? d then f
  else if d <? 2 * r then f + 1
  else if Z.even f then f else f + 1.

(** [round(x, 2)] *)
Definition round2 (q : Q) : Q := Qred (round_half_even (q * 100) # 100).

(** [round(a / b * 100, 2) if b else 0.0] *)
Definition pct (a b : Z) : Q :=
  if b =? 0 then 0%Q else round2 (inject_Z a / inject_Z b * 100).

(* ===================================================================== *)
(** * Year and month of a release                                         *)
(* ===================================================================== *)

Definition month_map : list (string * Z) :=
  [("JAN", 1); ("FEB", 2); ("MAR", 3); ("APR", 4); ("MAY", 5); ("JUN", 6);
   ("JUL", 7); ("AUG", 8); ("SEP", 9); ("OCT", 10); ("NOV", 11); ("DEC", 12)].

(** A match of [(20\d{2}|199\d)] at the start of [s]. *)
Definition year_at (s : string) : option Z :=
  match s with
  | String c1 (String c2 (String c3 (String c4 _))) =>
      match Str.digit c3, Str.digit c4 with
      | Some d3, Some d4 =>
          if Ascii.eqb c1 "2" && Ascii.eqb c2 "0" then Some (2000 + 10 * d3 + d4)
          else if Ascii.eqb c1 "1" && Ascii.eqb c2 "9" && Ascii.eqb c3 "9"
               then Some (1990 + d4)
               else None
      | _, _ => None
      end
  | _ => None
  end.

(** [re.search(r'(20\d{2}|199\d)', filename)]: the leftmost match. *)
Fixpoint search_year (s : string) : option Z :=
  match year_at s with
  | Some y => Some y
  | None =>
      match s with
      | "" => None
      | String _ s' => search_year s'
      end
  end.

(** [extract_year_month] on the name of the file. *)
Definition extract_year_month (fname : string) : option Z * option Z :=
  let filename := Str.upper (Str.stem fname) in
  let year := search_year filename in
  let month := snd <$> List.find (fun p => Str.contains (fst p) filename) month_map in
  (year, month).

(** Truth value of an optional integer: [None] and [0] are false. *)
Definition truthy (x : option Z) : bool :=
  match x with
  | Some v => negb (v =? 0)
  | None => false
  end.

(** Number of cells of [l] equal to [v]. *)
Definition occurrences (v : Q) (l : list Q) : nat :=
  length (List.filter (Qeq_bool v) l).

(** Of two values, the more frequent one in [l]; the smaller one on a tie. *)
Definition more_frequent (l : list Q) (a b : Q) : Q :=
  if (occurrences a l <? occurrences b l)%nat then b
  else if (occurrences b l <? occurrences a l)%nat then a
  else if Qle_bool a b then a else b.

(** [series.mode().iloc[0]]: the smallest of the most frequent non-missing
    values; [None] stands for the [IndexError] on an all-missing column. *)
Definition mode_first (col : NumSeries) : option Q :=
  match omap id col with
  | [] => None
  | v :: vs => Some (fold_left (more_frequent (v :: vs)) vs v)
  end.

(* ===================================================================== *)
(** * Diagnostics records                                                 *)
(* ===================================================================== *)

Inductive Status : Type := MAPPED | MAPPED_TRANSLATED | UNMAPPED.

Global Instance Status_eq_dec : EqDecision Status.
Proof. solve_decision. Defined.

(** One entry of [col_reports]. *)
Record ColReport : Type := mkColReport {
  status : Status;
  source_col : option string;
  translated : bool;
  raw_nonnull_count : Z;
  final_nonnull_count : Z;
  null_count : Z;
  retention_pct : Q;
  null_pct : Q;
  translation_loss : Z;
  candidates_searched : option (list string)
}.

(** [file_report] *)
Record FileReport : Type := mkFileReport {
  file : string;
  report_year : Z;
  report_month : option Z;
  rows : Z;
  source_columns_count : Z;
  mapped_count : Z;
  unmapped_count : Z;
  translated_count : Z;
  mapped_pct : Q;
  overall_retention_pct : Q;
  unmapped_columns : list string;
  report_columns : gmap string ColReport
}.

(** A harmonized table: its columns by name. *)
Abbreviation Table := (gmap string NumSeries).

(** The lines of the log the model keeps. *)
Inductive LogLine : Type :=
  | LogIndex (i n : nat)                 (* [i/n] *)
  | LogFile (fname : string)             (* FILE : fname *)
  | LogReadError (err : string)          (* ERROR reading file: err *)
  | LogYearDefault                       (* WARNING: Could not detect year - defaulting to 2020 *)
  | LogRelease (y : Z) (m : option Z) (nrows : nat)   (* Year : y  Month : m  Rows : nrows *)
  | LogFatal (err : string).             (* FATAL ERROR: err *)

(** An input file: its name, what [read_csv] does on it (a data frame or the
    text of the exception) and the exception, if any, that writing its
    parquet file raises. *)
Record InputFile : Type := mkInputFile {
  f_name : string;
  f_read : DataFrame + string;
  f_write_error : option string
}.

(* ===================================================================== *)
(** * Release processor                                                   *)
(* ===================================================================== *)

Section Pipeline.

(** [pd.to_numeric(s, errors='coerce')] on one string: the number it reads,
    or [None] where it coerces to NaN. *)
Variable to_numeric_str : string -> option Q.

Definition to_numeric (c : cell) : option Q :=
  match c with
  | NA => None
  | Num q => Some q
  | Str s => to_numeric_str s
  end.

(** [clean_column] *)
Definition clean_column (series : Series) : NumSeries :=
  map to_numeric (values series).

(** The fallback loop of [process_file] over the year-bearing columns;
    [year] is the value of the variable when the loop reaches [cols]. *)
Fixpoint year_from_columns (df : DataFrame) (col_map_upper : gmap string string)
    (cols : list string) (year : option Z) : option Z :=
  match cols with
  | [] => year
  | col :: rest =>
      match col_map_upper !! Str.upper col with
      | Some name =>
          let year' :=
            match getitem (columns df) name ≫= (fun s => mode_first (clean_column s)) with
            | Some m => Some (int_of_float m)
            | None => year
            end in
          if truthy year' then year'
          else year_from_columns df col_map_upper rest year'
      | None => year_from_columns df col_map_upper rest year
      end
  end.

Definition YEAR_COLUMNS : list string := ["SVYYR"; "CYEAR"; "PUFSVYYR"].

(** The year of a release and whether it is the default one. *)
Definition infer_year (fname : string) (df : DataFrame) : Z * bool :=
  match fst (extract_year_month fname) with
  | Some y => (y, false)
  | None =>
      match year_from_columns df (col_map_upper_of df) YEAR_COLUMNS None with
      | Some y => (y, false)
      | None => (2020, true)
      end
  end.

(** The body of the loop over [OUTPUT_SCHEMA] for one target: the output
    column and the entry of [col_reports]. *)
Definition process_target (df : DataFrame) (col_map_upper : gmap string string)
    (year : Z) (target : string) : NumSeries * ColReport :=
  let n := Z.of_nat (n_rows df) in
  match get_column df target col_map_upper with
  | Some (col_data, source_used) =>
      let raw_nonnull := notna_raw col_data in
      let col_data_clean := clean_column col_data in
      let clean_nonnull := notna_count col_data_clean in
      let '(out, final_nonnull, loss, st, was_translated) :=
        match TRANSLATION_MAP !! target with
        | Some t =>
            let translated_col :=
              map (fun x => inject_Z <$> translate t x year) col_data_clean in
            let final_nonnull := notna_count translated_col in
            (translated_col, final_nonnull, clean_nonnull - final_nonnull,
             MAPPED_TRANSLATED, true)
        | None => (col_data_clean, clean_nonnull, 0, MAPPED, false)
        end in
      let nulls := n - final_nonnull in
      (out,
       {| status := st;
          source_col := Some source_used;
          translated := was_translated;
          raw_nonnull_count := raw_nonnull;
          final_nonnull_count := final_nonnull;
          null_count := nulls;
          retention_pct := pct final_nonnull n;
          null_pct := pct nulls n;
          translation_loss := loss;
          candidates_searched := None |})
  | None =>
      (replicate (n_rows df) None,
       {| status := UNMAPPED;
          source_col := None;
          translated := false;
          raw_nonnull_count := 0;
          final_nonnull_count := 0;
          null_count := n;
          retention_pct := 0;
          null_pct := 100;
          translation_loss := 0;
          candidates_searched := Some (candidates target) |})
  end.

(** The state of the loop: [out_df], [col_reports], [unmapped_cols]. *)
Record LoopState : Type := mkLoopState {
  out_df : Table;
  col_reports : gmap string ColReport;
  unmapped_cols : list string
}.

Definition loop_step (df : DataFrame) (col_map_upper : gmap string string)
    (year : Z) (st : LoopState) (target : string) : LoopState :=
  let '(out, rep) := process_target df col_map_upper year target in
  {| out_df := <[target := out]> (out_df st);
     col_reports := <[target := rep]> (col_reports st);
     unmapped_cols :=
       if decide (status rep = UNMAPPED) then unmapped_cols st ++ [target]
       else unmapped_cols st |}.

Definition field_loop (df : DataFrame) (col_map_upper : gmap string string)
    (year : Z) : LoopState :=
  fold_left (loop_step df col_map_upper year) OUTPUT_SCHEMA
    {| out_df := ∅; col_reports := ∅; unmapped_cols := [] |}.

(** ["Lock year/month"]: the assignments after the loop. *)
Definition lock_year_month (n : nat) (year : Z) (month : option Z) (out : Table) : Table :=
  let out1 := <["PUFSVYYR" := replicate n (Some (inject_Z year))]> out in
  match month with
  | Some m => if truthy month then <["PUFSVYMO" := replicate n (Some (inject_Z m))]> out1 else out1
  | None => out1
  end.

(** [out_df[OUTPUT_SCHEMA]] *)
Definition select_schema (out : Table) : Table :=
  filter (fun kv => kv.1 ∈ OUTPUT_SCHEMA) out.

(** The status of a target in [col_reports]. *)
Definition status_of (reports : gmap string ColReport) (t : string) : option Status :=
  status <$> reports !! t.

Definition final_of (reports : gmap string ColReport) (t : string) : Z :=
  from_option final_nonnull_count 0 (reports !! t).

(** The part of [process_file] after a successful read. *)
Definition process_frame (fname : string) (df : DataFrame) : Table * FileReport :=
  let month := snd (extract_year_month fname) in
  let col_map_upper := col_map_upper_of df in
  let year := fst (infer_year fname df) in
  let st := field_loop df col_map_upper year in
  let out := select_schema (lock_year_month (n_rows df) year month (out_df st)) in
  let reports := col_reports st in
  let mapped_list :=
    List.filter (fun t => bool_decide (status_of reports t ≠ Some UNMAPPED)) OUTPUT_SCHEMA in
  let unmapped_list :=
    List.filter (fun t => bool_decide (status_of reports t = Some UNMAPPED)) OUTPUT_SCHEMA in
  let translated_list :=
    List.filter (fun t => from_option translated false (reports !! t)) OUTPUT_SCHEMA in
  let total_cells := Z.of_nat (n_rows df) * Z.of_nat (length OUTPUT_SCHEMA) in
  let nonnull_cells := foldr Z.add 0 (map (final_of reports) OUTPUT_SCHEMA) in
  (out,
   {| file := fname;
      report_year := year;
      report_month := month;
      rows := Z.of_nat (n_rows df);
      source_columns_count := Z.of_nat (length (columns df));
      mapped_count := Z.of_nat (length mapped_list);
      unmapped_count := Z.of_nat (length unmapped_list);
      translated_count := Z.of_nat (length translated_list);
      mapped_pct := round2 (inject_Z (Z.of_nat (length mapped_list))
                            / inject_Z (Z.of_nat (length OUTPUT_SCHEMA)) * 100);
      overall_retention_pct := pct nonnull_cells total_cells;
      unmapped_columns := unmapped_list;
      report_columns := reports |}).

(** [process_file]: the result ([None] for [(None, None)]) and the log. *)
Definition process_file (f : InputFile) (log_messages : list LogLine)
    : option (Table * FileReport) * list LogLine :=
  let log1 := log_messages ++ [LogFile (f_name f)] in
  match f_read f with
  | inr e => (None, log1 ++ [LogReadError e])
  | inl df =>
      let '(year, defaulted) := infer_year (f_name f) df in
      let log2 := if defaulted then log1 ++ [LogYearDefault] else log1 in
      let month := snd (extract_year_month (f_name f)) in
      (Some (process_frame (f_name f) df),
       log2 ++ [LogRelease year month (n_rows df)])
  end.

(* ===================================================================== *)
(** * Coverage aggregator                                                 *)
(* ===================================================================== *)

(** One entry of the summary of [build_column_summary]. *)
Record ColumnSummary : Type := mkColumnSummary {
  files_total : Z;
  files_unmapped : Z;
  files_mapped : Z;
  unmapped_pct : Q;
  avg_retention_when_mapped : option Q;
  min_retention_when_mapped : option Q;
  max_retention_when_mapped : option Q;
  source_columns_used : gmap string Z;
  unmapped_in_files : list string
}.

(** The accumulators of the inner loop: [unmapped_files], [retention_vals],
    [sources]. *)
Record SummaryAcc : Type := mkSummaryAcc {
  unmapped_files : list string;
  retention_vals : list Q;
  sources : gmap string Z
}.

(** One pass of the inner loop.  [info] is [rep['columns'].get(col, {})]: a
    report without an entry for [col] counts as not UNMAPPED, with retention
    [0.0] and no source. *)
Definition summary_step (col : string) (acc : SummaryAcc) (rep : FileReport) : SummaryAcc :=
  let info := report_columns rep !! col in
  if decide (status <$> info = Some UNMAPPED) then
    {| unmapped_files := unmapped_files acc ++ [file rep];
       retention_vals := retention_vals acc;
       sources := sources acc |}
  else
    {| unmapped_files := unmapped_files acc;
       retention_vals := retention_vals acc ++ [from_option retention_pct 0%Q info];
       sources :=
         match info ≫= source_col with
         | Some src =>
             if decide (src = "") then sources acc
             else <[src := default 0 (sources acc !! src) + 1]> (sources acc)
         | None => sources acc
         end |}.

(** [sum(l)] *)
Definition Qsum (l : list Q) : Q := fold_left Qplus l 0%Q.

(** [min(l)] and [max(l)] of a non-empty list, given as head and tail. *)
Definition Qmin_list (v : Q) (l : list Q) : Q :=
  fold_left (fun m x => if Qle_bool m x then m else x) l v.

Definition Qmax_list (v : Q) (l : list Q) : Q :=
  fold_left (fun m x => if Qle_bool x m then m else x) l v.

Definition summarize_column (all_file_reports : list FileReport) (col : string)
    : ColumnSummary :=
  let n_files := Z.of_nat (length all_file_reports) in
  let acc :=
    fold_left (summary_step col) all_file_reports
      {| unmapped_files := []; retention_vals := []; sources := ∅ |} in
  let n_unmapped := Z.of_nat (length (unmapped_files acc)) in
  let vals := retention_vals acc in
  {| files_total := n_files;
     files_unmapped := n_unmapped;
     files_mapped := n_files - n_unmapped;
     unmapped_pct := pct n_unmapped n_files;
     avg_retention_when_mapped :=
       match vals with
       | [] => None
       | _ :: _ => Some (round2 (Qsum vals / inject_Z (Z.of_nat (length vals))))
       end;
     min_retention_when_mapped :=
       match vals with
       | [] => None
       | v :: vs => Some (round2 (Qmin_list v vs))
       end;
     max_retention_when_mapped :=
       match vals with
       | [] => None
       | v :: vs => Some (round2 (Qmax_list v vs))
       end;
     source_columns_used := sources acc;
     unmapped_in_files := unmapped_files acc |}.

Definition build_column_summary (all_file_reports : list FileReport)
    : gmap string ColumnSummary :=
  fold_left (fun summary col => <[col := summarize_column all_file_reports col]> summary)
    OUTPUT_SCHEMA ∅.

(* ===================================================================== *)
(** * The run over all releases                                           *)
(* ===================================================================== *)

(** The variables of [process_all_batched] that the loop over the files
    updates. *)
Record RunState : Type := mkRunState {
  log_messages : list LogLine;
  all_file_reports : list FileReport;
  all_parquet_files : list (string * Table);
  errors : list (string * string);
  total_rows : Z
}.

(** One pass of the loop over the files; [i] is the index that [enumerate]
    gives and [n] the number of files. *)
Definition run_file (n : nat) (st : RunState) (i : nat) (f : InputFile) : RunState :=
  let log0 := log_messages st ++ [LogIndex i n] in
  match process_file f log0 with
  | (Some (df, file_report), log1) =>
      match f_write_error f with
      | Some e =>
          {| log_messages := log1 ++ [LogFatal e];
             all_file_reports := all_file_reports st;
             all_parquet_files := all_parquet_files st;
             errors := errors st ++ [(f_name f, e)];
             total_rows := total_rows st |}
      | None =>
          {| log_messages := log1;
             all_file_reports := all_file_reports st ++ [file_report];
             all_parquet_files :=
               all_parquet_files st ++ [(Str.stem (f_name f) +:+ "_harmonized.parquet", df)];
             errors := errors st;
             total_rows := total_rows st + rows file_report |}
      end
  | (None, log1) =>
      {| log_messages := log1;
         all_file_reports := all_file_reports st;
         all_parquet_files := all_parquet_files st;
         errors := errors st;
         total_rows := total_rows st |}
  end.

Fixpoint run_files (n : nat) (st : RunState) (i : nat) (files : list InputFile) : RunState :=
  match files with
  | [] => st
  | f :: rest => run_files n (run_file n st i f) (S i) rest
  end.

(** [pd.concat([a, b])] of two tables with the same columns. *)
Definition concat2 (a b : Table) : Table :=
  union_with (fun x y => Some (x ++ y)) a b.

(** [pd.concat(dfs)] of a non-empty list of tables. *)
Definition pd_concat (dfs : list Table) : Table :=
  match dfs with
  | [] => ∅
  | t :: rest => fold_left concat2 rest t
  end.

(** The loop over the batches.  [rest] holds the tables from [batch_start]
    on and [combined] the content of the combined file, if it is written
    already; [fuel] bounds the number of batches. *)
Fixpoint combine_batches (fuel batch_size : nat) (rest : list Table)
    (combined : option Table) : option Table :=
  match fuel, rest with
  | O, _ => combined
  | _, [] => combined
  | S fuel', _ :: _ =>
      let batch_combined := pd_concat (take batch_size rest) in
      let combined' :=
        match combined with
        | None => batch_combined
        | Some existing => pd_concat [existing; batch_combined]
        end in
      combine_batches fuel' batch_size (drop batch_size rest) (Some combined')
  end.

(** What a run leaves behind. *)
Record RunResult : Type := mkRunResult {
  final_state : RunState;
  col_summary : gmap string ColumnSummary;
  combined_table : option Table
}.

(** [process_all_batched] on the list of input files, for a positive
    [batch_size]; the final sort of the combined table, which permutes its
    rows, is left out. *)
Definition process_all_batched (files : list InputFile) (batch_size : nat) : RunResult :=
  let st :=
    run_files (length files)
      {| log_messages := []; all_file_reports := []; all_parquet_files := [];
         errors := []; total_rows := 0 |}
      1%nat files in
  let tables := map snd (all_parquet_files st) in
  {| final_state := st;
     col_summary :=
       match all_file_reports st with
       | [] => ∅
       | _ :: _ => build_column_summary (all_file_reports st)
       end;
     combined_table := combine_batches (length tables) batch_size tables None |}.

(* ===================================================================== *)
(** * Specification-level notions                                         *)
(* ===================================================================== *)

(** The column name that stands for a variant: the last column of the data
    frame whose name equals the variant up to case. *)
Definition variant_name (df : DataFrame) (src : string) : option string :=
  last (filter (fun n => Str.upper n = Str.upper src) (map fst (columns df))).

(** A column has a value: some cell is not missing. *)
Definition has_value (col : Series) : Prop :=
  ∃ c, c ∈ values col ∧ c ≠ NA.

(** Every character of the string is white space. *)
Fixpoint all_space (s : string) : bool :=
  match s with
  | "" => true
  | String c s' => Str.is_space c && all_space s'
  end.

(** A blank cell: a text without any character that is not white space. *)
Definition blank (c : cell) : Prop :=
  match c with
  | Str s => all_space s = true
  | _ => False
  end.

Definition has_text (col : Series) : Prop :=
  ∃ c, c ∈ values col ∧ c ≠ NA ∧ ¬ blank c.

(** A variant is accepted with column [col]: it is present up to case, has a
    non-missing value and, if it is a text column, a value that is not blank. *)
Definition accepted (df : DataFrame) (src : string) (col : Series) : Prop :=
  ∃ name, variant_name df src = Some name
          ∧ getitem (columns df) name = Some col
          ∧ has_value col
          ∧ (dtype_object col = true → has_text col).

Definition rejected (df : DataFrame) (src : string) : Prop :=
  ∀ col, ¬ accepted df src col.

(** What the loop decides on one variant. *)
Definition variant_result (df : DataFrame) (src : string) : option Series :=
  match col_map_upper_of df !! Str.upper src with
  | Some name =>
      match getitem (columns df) name with
      | Some col => if populated col then Some col else None
      | None => None
      end
  | None => None
  end.

(** The year that a fallback column gives: the integer part of the mode of
    the column that stands for [col] up to case, if there is such a column
    and it has a non-missing numeric value. *)
Definition column_year (df : DataFrame) (col : string) : option Z :=
  name ← variant_name df col;
  s ← getitem (columns df) name;
  m ← mode_first (clean_column s);
  Some (int_of_float m).

(** A fallback column that gives no usable year: no mode, or the mode 0. *)
Definition no_year (df : DataFrame) (col : string) : Prop :=
  column_year df col = None ∨ column_year df col = Some 0.





(** What a file adds to the outputs of a run: its table and its report, if
    it is read and its parquet file is written. *)
Definition released (f : InputFile) : option (Table * FileReport) :=
  match f_read f, f_write_error f with
  | inl df, None => Some (process_frame (f_name f) df)
  | _, _ => None
  end.

(** The entry that a file adds to [errors]: only a failure after the read. *)
Definition fatal_error (f : InputFile) : option (string * string) :=
  match f_read f, f_write_error f with
  | inl _, Some e => Some (f_name f, e)
  | _, _ => None
  end.

Definition parquet_entry (f : InputFile) : option (string * Table) :=
  (fun r => (Str.stem (f_name f) +:+ "_harmonized.parquet", fst r)) <$> released f.

(** The column of a field in a table; empty if the table lacks it. *)
Definition column_of (f : string) (t : Table) : NumSeries := default [] (t !! f).

Definition Zsum (l : list Z) : Z := foldr Z.add 0 l.

(** The field is set after the loop in the table of the release of [rep]:
    the year always, the month when the release has one. *)
Definition locked (f : string) (rep : FileReport) : bool :=
  bool_decide (f = "PUFSVYYR")
  || (bool_decide (f = "PUFSVYMO") && truthy (report_month rep)).

(** [final_nonnull_count] of the field in a report. *)
Definition reported_count (f : string) (rep : FileReport) : Z :=
  from_option final_nonnull_count 0 (report_columns rep !! f).

(** The configuration tables and the functions over them are not unfolded
    by simplification. *)
Global Arguments COLUMN_PRIORITY : simpl never.
Global Arguments OUTPUT_SCHEMA : simpl never.
Global Arguments TRANSLATION_MAP : simpl never.
Global Arguments candidates : simpl never.
Global Arguments get_column : simpl never.
Global Arguments process_target : simpl never.
Global Arguments process_frame : simpl never.
Global Arguments infer_year : simpl never.
Global Arguments extract_year_month : simpl never.
Global Arguments field_loop : simpl never.
Global Arguments col_map_upper_of : simpl never.
Global Arguments build_column_summary : simpl never.
Global Arguments summarize_column : simpl never.
Global Opaque COLUMN_PRIORITY TRANSLATION_MAP OUTPUT_SCHEMA.

(* ===================================================================== *)
(** * Sample releases                                                     *)
(* ===================================================================== *)

(** A reader of unsigned decimal integers, used for the sample data in the
    place of [pd.to_numeric] on strings. *)
Fixpoint digits_value (s : string) (acc : Z) : option Z :=
  match s with
  | "" => Some acc
  | String c s' =>
      match Str.digit c with
      | Some d => digits_value s' (10 * acc + d)
      | None => None
      end
  end.

Definition parse_digits (s : string) : option Q :=
  match s with
  | "" => None
  | _ => inject_Z <$> digits_value s 0
  end.

(** Five rows: the preferred household column is a placeholder without
    values, the second variant is filled on four rows; marital status holds
    the code 6, which the table of 2009 does not have. *)
Definition sample_df : DataFrame :=
  {| n_rows := 5;
     columns :=
       [ ("PUFHHNUM", mkSeries false [NA; NA; NA; NA; NA]);
         ("hhnum", mkSeries false [Num 11; Num 12; NA; Num 14; Num 15]);
         ("C06_SEX", mkSeries true [Str "1"; Str " "; Str "2"; NA; Str "x"]);
         ("c08_mstat", mkSeries false [Num 1; Num 6; Num 2; NA; Num 5]);
         ("SVYYR", mkSeries false [Num 2008; Num 2008; Num 2009; NA; Num 2009]) ] |}.

(** Two rows, one column, neither year nor month columns. *)
Definition small_df : DataFrame :=
  {| n_rows := 2;
     columns := [ ("PUFREG", mkSeries false [Num 1; Num 2]) ] |}.



Definition file_jan2009 : InputFile :=
  {| f_name := "LFS_jan2009.csv"; f_read := inl sample_df; f_write_error := None |}.

Definition file_2019 : InputFile :=
  {| f_name := "LFS_2019.csv"; f_read := inl small_df; f_write_error := None |}.

Definition file_noyear : InputFile :=
  {| f_name := "survey.csv"; f_read := inl small_df; f_write_error := None |}.


Definition file_broken : InputFile :=
  {| f_name := "broken.csv"; f_read := inr "No columns to parse from file";
     f_write_error := None |}.

Definition sample_files : list InputFile :=
  [file_jan2009; file_broken; file_2019; file_noyear].




(* ===================================================================== *)
(** * Further specification-level notions                                 *)
(* ===================================================================== *)

(** The string without its first [n] characters. *)
Fixpoint skip (n : nat) (s : string) : string :=
  match n, s with
  | O, _ => s
  | S n', String _ s' => skip n' s'
  | S _, "" => ""
  end.

(** The identifier of a release: the upper-cased stem of its file name. *)
Definition identifier (fname : string) : string := Str.upper (Str.stem fname).


(* ===================================================================== *)
(** * Trimming                                                            *)
(* ===================================================================== *)

Lemma rev_app_all_space (s1 s2 : string) :
  all_space (String.rev_app s1 s2) = all_space s1 && all_space s2.
Proof.
  revert s2. induction s1 as [|c s1 IH]; intros s2; [reflexivity|].
  cbn [String.rev_app all_space]. rewrite IH. cbn [all_space].
  destruct (Str.is_space c), (all_space s1), (all_space s2); reflexivity.
Qed.

Lemma rev_app_empty (s1 s2 : string) :
  String.rev_app s1 s2 = "" → s1 = "" ∧ s2 = "".
Proof.
  revert s2. induction s1 as [|c s1 IH]; intros s2; cbn [String.rev_app].
  - intros ->. split; reflexivity.
  - intros H. apply IH in H as [_ H]. discriminate H.
Qed.

Lemma lstrip_empty (s : string) : Str.lstrip s = "" ↔ all_space s = true.
Proof.
  induction s as [|c s IH]; cbn [Str.lstrip all_space]; [split; reflexivity|].
  destruct (Str.is_space c); cbn [andb]; [exact IH|]. split; discriminate.
Qed.

(** What is left after [lstrip] is empty or starts with a character that is
    not white space. *)
Lemma lstrip_head (s : string) :
  Str.lstrip s = "" ∨ ∃ c r, Str.lstrip s = String c r ∧ Str.is_space c = false.
Proof.
  induction s as [|c s IH]; cbn [Str.lstrip]; [by left|].
  destruct (Str.is_space c) eqn:E; [exact IH|]. right. by exists c, s.
Qed.

(** [s.strip()] is the empty string exactly when [s] consists of white
    space only; so a text cell is blank for the resolver exactly when it has
    no other character. *)
Theorem strip_empty_iff (s : string) : Str.strip s = "" ↔ all_space s = true.
Proof.
  unfold Str.strip, Str.rstrip, String.rev. split.
  - intros H. apply rev_app_empty in H as [H _].
    apply lstrip_empty in H. rewrite rev_app_all_space in H.
    apply andb_true_iff in H as [H _].
    destruct (lstrip_head s) as [E|(c & r & E & Hc)].
    + by apply lstrip_empty.
    + rewrite E in H. cbn [all_space] in H. rewrite Hc in H. discriminate H.
  - intros H. apply lstrip_empty in H. rewrite H. reflexivity.
Qed.


(* ===================================================================== *)
(** * Properties of the string functions and of the identifier            *)
(* ===================================================================== *)

Lemma starts_with_spec (p s : string) :
  Str.starts_with p s = true ↔ ∃ b, s = p +:+ b.
Proof.
  revert s. induction p as [|a p IH]; intros s; cbn [Str.starts_with].
  - split; [intros _; by exists s|reflexivity].
  - destruct s as [|c s].
    + split; [discriminate|]. intros [b Hb]. discriminate Hb.
    + destruct (Ascii.eqb_spec a c) as [->|Hne].
      * rewrite IH. split; intros [b Hb]; exists b.
        -- by rewrite Hb.
        -- by injection Hb.
      * split; [discriminate|]. intros [b Hb]. injection Hb as Hac _. congruence.
Qed.

(** [p in s] holds exactly when [p] occurs in [s]. *)
Lemma contains_spec (p s : string) :
  Str.contains p s = true ↔ ∃ a b, s = a +:+ p +:+ b.
Proof.
  induction s as [|c s IH].
  - cbn [Str.contains]. rewrite orb_false_r, starts_with_spec. split.
    + intros [b Hb]. by exists "", b.
    + intros (a & b & H). destruct a; [by exists b|discriminate H].
  - cbn [Str.contains]. rewrite orb_true_iff, starts_with_spec, IH. split.
    + intros [[b Hb]|(a & b & H)].
      * by exists "", b.
      * exists (String c a), b. by rewrite H.
    + intros (a & b & H). destruct a as [|c' a].
      * left. by exists b.
      * right. exists a, b. by injection H.
Qed.

(** A match of the year pattern is a year from 1990 to 2099. *)
Lemma year_at_range (s : string) (y : Z) :
  year_at s = Some y → 1990 <= y <= 2099.
Proof.
  unfold year_at.
  destruct s as [|c1 [|c2 [|c3 [|c4 r]]]]; try discriminate.
  destruct (Str.digit c3) as [d3|] eqn:D3; [|discriminate].
  destruct (Str.digit c4) as [d4|] eqn:D4; [|discriminate].
  assert (R : ∀ c d, Str.digit c = Some d → 0 <= d <= 9).
  { intros c d. unfold Str.digit.
    destruct ((48 <=? N_of_ascii c)%N && (N_of_ascii c <=? 57)%N) eqn:E; [|discriminate].
    intros [= <-]. apply andb_true_iff in E as [E1 E2].
    apply N.leb_le in E1, E2. lia. }
  apply R in D3, D4.
  destruct (Ascii.eqb c1 "2" && Ascii.eqb c2 "0");
    [|destruct (Ascii.eqb c1 "1" && Ascii.eqb c2 "9" && Ascii.eqb c3 "9")];
    intros [= <-]; lia.
Qed.

Lemma search_year_unfold (s : string) :
  search_year s
  = match year_at s with
    | Some y => Some y
    | None => match s with "" => None | String _ s' => search_year s' end
    end.
Proof. destruct s; reflexivity. Qed.

Lemma skip_empty (n : nat) : skip n "" = "".
Proof. by destruct n. Qed.

Lemma search_year_Some (s : string) (y : Z) :
  search_year s = Some y
  ↔ ∃ n, year_at (skip n s) = Some y ∧ ∀ m, (m < n)%nat → year_at (skip m s) = None.
Proof.
  revert y. induction s as [|c s IH]; intros y; rewrite search_year_unfold.
  - cbn. split; [discriminate|]. intros (n & H & _).
    rewrite skip_empty in H. discriminate H.
  - destruct (year_at (String c s)) as [y0|] eqn:E.
    + split.
      * intros [= <-]. exists 0%nat. split; [exact E|]. intros m Hm. lia.
      * intros (n & H & Hn). destruct n as [|n].
        -- cbn [skip] in H. congruence.
        -- specialize (Hn 0%nat ltac:(lia)). cbn [skip] in Hn. congruence.
    + rewrite IH. split.
      * intros (n & H & Hn). exists (S n). split; [exact H|].
        intros [|m] Hm; [exact E|]. apply Hn. lia.
      * intros (n & H & Hn). destruct n as [|n].
        -- cbn [skip] in H. congruence.
        -- exists n. split; [exact H|]. intros m Hm.
           apply (Hn (S m)). lia.
Qed.

Lemma search_year_None (s : string) :
  search_year s = None ↔ ∀ n, year_at (skip n s) = None.
Proof.
  induction s as [|c s IH]; rewrite search_year_unfold.
  - cbn. split; [|reflexivity]. intros _ n. by rewrite skip_empty.
  - destruct (year_at (String c s)) as [y0|] eqn:E.
    + split; [discriminate|]. intros H. specialize (H 0%nat). cbn [skip] in H.
      congruence.
    + rewrite IH. split.
      * intros H [|n]; [exact E|apply H].
      * intros H n. apply (H (S n)).
Qed.

(** The year of an identifier is the leftmost match of the pattern
    [(20\d{2}|199\d)]: it is read at the first position where the pattern
    matches, it lies between 1990 and 2099, and there is no year exactly
    when the pattern matches nowhere. *)
Theorem search_year_leftmost (s : string) :
  (∀ y, search_year s = Some y
        ↔ ∃ n, year_at (skip n s) = Some y
               ∧ ∀ m, (m < n)%nat → year_at (skip m s) = None)
  ∧ (search_year s = None ↔ ∀ n, year_at (skip n s) = None)
  ∧ (∀ y, search_year s = Some y → 1990 <= y <= 2099).
Proof.
  split; [intros y; apply search_year_Some|]. split; [apply search_year_None|].
  intros y Hy. apply search_year_Some in Hy as (n & Hn & _).
  by apply year_at_range in Hn.
Qed.

(** The month of a release is the first month of the calendar whose
    three-letter name occurs in the identifier, wherever it occurs; there is
    no month exactly when no name occurs. *)
Theorem month_first_in_calendar (fname : string) :
  (∀ m, snd (extract_year_month fname) = Some m
        ↔ ∃ pre name post,
            month_map = pre ++ (name, m) :: post
            ∧ (∃ a b, identifier fname = a +:+ name +:+ b)
            ∧ ∀ p, p ∈ pre → ¬ ∃ a b, identifier fname = a +:+ fst p +:+ b)
  ∧ (snd (extract_year_month fname) = None
     ↔ ∀ p, p ∈ month_map → ¬ ∃ a b, identifier fname = a +:+ fst p +:+ b).
Proof.
  unfold extract_year_month. cbv zeta. cbn [snd]. fold (identifier fname).
  generalize (identifier fname) as id. intros id.
  assert (Hnd : NoDup (map snd month_map)).
  { apply NoDup_ListNoDup. apply (NoDup_count_occ' Z.eq_dec). intros x Hx.
    unfold month_map in *. cbn [map snd] in *.
    repeat (destruct Hx as [<-|Hx]; [reflexivity|]). destruct Hx. }
  revert Hnd. generalize month_map as l.
  induction l as [|[name k] l IH]; intros Hnd.
  - cbn. split.
    + intros m. split; [discriminate|]. intros (pre & ? & ? & E & _).
      by destruct pre.
    + split; [|reflexivity]. intros _ p Hp. by apply elem_of_nil in Hp.
  - cbn [List.find fst]. inversion Hnd as [|? ? Hk Hnd']; subst.
    destruct (IH Hnd') as [IH1 IH2].
    destruct (Str.contains name id) eqn:C.
    + apply contains_spec in C. split.
      * intros m. cbn. split.
        -- intros [= <-]. exists [], name, l. split; [reflexivity|]. split; [exact C|].
           intros p Hp. by apply elem_of_nil in Hp.
        -- intros (pre & n' & post & E & Hn & Hpre).
           destruct pre as [|q pre]; cbn in E.
           ++ by injection E as _ <- _.
           ++ injection E as <- _. destruct (Hpre (name, k) (list_elem_of_here _ _)).
              exact C.
      * cbn. split; [discriminate|]. intros H.
        destruct (H (name, k) (list_elem_of_here _ _)). exact C.
    + assert (NC : ¬ ∃ a b, id = a +:+ name +:+ b).
      { intros H. apply contains_spec in H. congruence. }
      split.
      * intros m. rewrite IH1. split.
        -- intros (pre & n' & post & -> & Hn & Hpre).
           exists ((name, k) :: pre), n', post. split; [reflexivity|]. split; [exact Hn|].
           intros p [->|Hp]%elem_of_cons; [exact NC|by apply Hpre].
        -- intros (pre & n' & post & E & Hn & Hpre).
           destruct pre as [|q pre]; cbn in E.
           ++ injection E as <- <- <-. by destruct NC.
           ++ injection E as <- ->. exists pre, n', post.
              split; [reflexivity|]. split; [exact Hn|].
              intros p Hp. by apply Hpre, list_elem_of_further.
      * rewrite IH2. split.
        -- intros H p [->|Hp]%elem_of_cons; [exact NC|by apply H].
        -- intros H p Hp. by apply H, list_elem_of_further.
Qed.

(* ===================================================================== *)
(** * The mode of a column                                                *)
(* ===================================================================== *)






(* ===================================================================== *)
(** * Properties of the translators                                       *)
(* ===================================================================== *)

(** Case analysis on the first comparison of integers found in the goal. *)
Ltac case_test :=
  match goal with
  | |- context [?a <=? ?b] => destruct (Z.leb_spec a b)
  | |- context [?a <? ?b] => destruct (Z.ltb_spec a b)
  | |- context [?a =? ?b] => destruct (Z.eqb_spec a b)
  end.


Lemma translate_missing (t : Translator) (y : Z) : translate t None y = None.
Proof. by destruct t. Qed.

Lemma in_band_bounds (lo hi : option Z) (y : Z) :
  in_band (lo, hi) y = true ↔
  from_option (fun l => l <= y) True lo ∧ from_option (fun h => y <= h) True hi.
Proof.
  unfold in_band; simpl. rewrite andb_true_iff.
  destruct lo, hi; simpl; rewrite ?Z.leb_le; intuition.
Qed.

(** Exactly one band of a translator holds a given year. *)
Lemma era_bands_exactly_one (t : Translator) (y : Z) :
  length (List.filter (fun b => in_band b y) (era_bands t)) = 1%nat.
Proof.
  destruct t; simpl; unfold in_band; simpl; try reflexivity;
    repeat (case_test; simpl; try lia; try reflexivity).
Qed.

(** Two years of one band are translated alike. *)
Lemma translate_constant_on_band (t : Translator) (b : option Z * option Z)
    (y1 y2 : Z) (code : option Q) :
  b ∈ era_bands t → in_band b y1 = true → in_band b y2 = true →
  translate t code y1 = translate t code y2.
Proof.
  intros Hb H1 H2. destruct b as [lo hi].
  apply in_band_bounds in H1 as [L1 U1]. apply in_band_bounds in H2 as [L2 U2].
  destruct t; simpl in Hb; try reflexivity;
    simpl; unfold translate_mstat, translate_grade, translate_wynot;
    (destruct (safe_int code) as [c|]; [|reflexivity]);
    repeat (apply elem_of_cons in Hb as [Hb|Hb];
            [injection Hb as -> ->; simpl in *|]);
    try (by apply elem_of_nil in Hb).
  all: repeat match goal with
       | |- context [?y <=? ?k] =>
           first [constr_eq y y1 | constr_eq y y2]; destruct (Z.leb_spec y k); try lia
       | |- context [?y <? ?k] =>
           first [constr_eq y y1 | constr_eq y y2]; destruct (Z.ltb_spec y k); try lia
       end; reflexivity.
Qed.

(** A list with exactly one element that passes a test. *)
Lemma filter_length_one {A : Type} (P : A → bool) (l : list A) :
  length (List.filter P l) = 1%nat →
  ∃ b, b ∈ l ∧ P b = true ∧ ∀ b', b' ∈ l → P b' = true → b' = b.
Proof.
  destruct (List.filter P l) as [|b [|? ?]] eqn:E; simpl; try discriminate.
  intros _. exists b.
  assert (Hb : In b (List.filter P l)) by (rewrite E; by left).
  apply filter_In in Hb as [Hb1 Hb2].
  split; [by apply list_elem_of_In|]. split; [done|].
  intros b' Hb' HP.
  assert (Hin : In b' (List.filter P l)).
  { apply filter_In. split; [by apply list_elem_of_In|done]. }
  rewrite E in Hin. destruct Hin as [->|[]]. done.
Qed.

(** C5: for every registered translator and every integer year exactly one
    era band applies (a year is in one band of the translator, and any band
    that holds it is that one), and the translation of a code is the same
    for all years of a band. *)
Theorem C5_one_era_per_year (t : Translator) (y : Z) :
  (∃ b, b ∈ era_bands t ∧ in_band b y = true
        ∧ ∀ b', b' ∈ era_bands t → in_band b' y = true → b' = b)
  ∧ (∀ b y' code, b ∈ era_bands t → in_band b y = true → in_band b y' = true →
       translate t code y = translate t code y').
Proof.
  split.
  - apply filter_length_one, era_bands_exactly_one.
  - intros b y' code Hb Hy Hy'. by apply translate_constant_on_band with b.
Qed.

(** Every translator function is the value of some field in the registry. *)
Lemma translator_registered (t : Translator) :
  ∃ field, TRANSLATION_MAP !! field = Some t.
Proof.
  destruct t;
    [ exists "PUFC03_REL" | exists "PUFC06_MSTAT" | exists "PUFC07_GRADE"
    | exists "PUFC10_CONWR" | exists "PUFC17_NATEM" | exists "PUFC20_PWMORE"
    | exists "PUFC23_PCLASS" | exists "PUFC24_PBASIS" | exists "PUFC34_WYNOT" ];
    by vm_compute.
Qed.









(* ===================================================================== *)
(** * Properties of the resolver                                          *)
(* ===================================================================== *)

Lemma col_map_upper_fold (cols : list (string * Series)) (k : string) :
  fold_left (fun m c => <[Str.upper (fst c) := fst c]> m) cols (∅ : gmap string string) !! k
  = last (filter (fun n => Str.upper n = k) (map fst cols)).
Proof.
  induction cols as [|c cols IH] using rev_ind; [done|].
  rewrite fold_left_app, map_app, filter_app. simpl.
  destruct (decide (Str.upper c.1 = k)) as [E|E].
  - rewrite E, lookup_insert_eq.
    rewrite (filter_cons_True (λ n, Str.upper n = k)) by done.
    by rewrite filter_nil, last_snoc.
  - rewrite lookup_insert_ne by done.
    rewrite (filter_cons_False (λ n, Str.upper n = k)) by done.
    by rewrite filter_nil, app_nil_r.
Qed.

(** The dictionary of upper-cased names gives, for a variant, the last
    column that equals it up to case. *)
Lemma col_map_upper_lookup (df : DataFrame) (src : string) :
  col_map_upper_of df !! Str.upper src = variant_name df src.
Proof. apply col_map_upper_fold. Qed.

(** A name stored in the dictionary is the name of a column. *)
Lemma col_map_upper_sound (df : DataFrame) (k name : string) :
  col_map_upper_of df !! k = Some name → is_Some (getitem (columns df) name).
Proof.
  unfold col_map_upper_of. rewrite col_map_upper_fold. intros H.
  apply last_Some_elem_of, list_elem_of_filter in H as [_ H].
  apply list_elem_of_fmap in H as [[n s] [-> H]]. simpl.
  induction (columns df) as [|[n' s'] cols IH]; [by apply elem_of_nil in H|].
  simpl. destruct (String.eqb_spec n' n); [by eexists|].
  apply IH. apply elem_of_cons in H as [H|H]; [congruence|done].
Qed.

Lemma dropna_nonempty (l : list cell) :
  (0 <? length (dropna l))%nat = true ↔ ∃ c, c ∈ l ∧ c ≠ NA.
Proof.
  rewrite Nat.ltb_lt. unfold dropna. split.
  - destruct (List.filter _ l) as [|c r] eqn:E; simpl; [lia|]. intros _.
    assert (Hc : In c (List.filter (fun c => negb (is_na c)) l)) by (rewrite E; by left).
    apply filter_In in Hc as [Hc1 Hc2]. exists c. split; [by apply list_elem_of_In|].
    by destruct c.
  - intros (c & Hc & Hna).
    assert (Hin : In c (List.filter (fun c => negb (is_na c)) l)).
    { apply filter_In. split; [by apply list_elem_of_In|]. by destruct c. }
    destruct (List.filter _ l); [destruct Hin|simpl; lia].
Qed.

Lemma non_whitespace_spec (c : cell) : non_whitespace c = true ↔ ¬ blank c.
Proof.
  destruct c as [| |s]; simpl; [tauto..|]. rewrite <- strip_empty_iff.
  destruct (String.eqb_spec (Str.strip s) ""); simpl; split; intros; done.
Qed.

Lemma text_nonempty (l : list cell) :
  (0 <? length (List.filter non_whitespace (dropna l)))%nat = true
  ↔ ∃ c, c ∈ l ∧ c ≠ NA ∧ ¬ blank c.
Proof.
  rewrite Nat.ltb_lt. unfold dropna. split.
  - destruct (List.filter non_whitespace _) as [|c r] eqn:E; simpl; [lia|]. intros _.
    assert (Hc : In c (List.filter non_whitespace
                         (List.filter (fun c => negb (is_na c)) l))) by (rewrite E; by left).
    apply filter_In in Hc as [Hc1 Hc2]. apply filter_In in Hc1 as [Hc0 Hc1].
    exists c. split; [by apply list_elem_of_In|].
    split; [by destruct c|by apply non_whitespace_spec].
  - intros (c & Hc & Hna & Hb).
    assert (Hin : In c (List.filter non_whitespace
                          (List.filter (fun c => negb (is_na c)) l))).
    { apply filter_In. split; [|by apply non_whitespace_spec].
      apply filter_In. split; [by apply list_elem_of_In|]. by destruct c. }
    destruct (List.filter non_whitespace _); [destruct Hin|simpl; lia].
Qed.

(** The test of the code is the acceptance rule of the specification. *)
Lemma populated_spec (col : Series) :
  populated col = true ↔ has_value col ∧ (dtype_object col = true → has_text col).
Proof.
  unfold populated, has_value, has_text.
  destruct (0 <? length (dropna (values col)))%nat eqn:E.
  - apply dropna_nonempty in E. destruct (dtype_object col).
    + rewrite text_nonempty. split; [intros H; split; [done|by intros _]|].
      intros [_ H]. by apply H.
    + split; [by intros _; split|done].
  - split; [done|]. intros [H _]. apply dropna_nonempty in H. congruence.
Qed.

Lemma variant_result_spec (df : DataFrame) (src : string) (col : Series) :
  variant_result df src = Some col ↔ accepted df src col.
Proof.
  unfold variant_result, accepted. rewrite col_map_upper_lookup.
  destruct (variant_name df src) as [name|]; [|split; [done|by intros (? & ? & _)]].
  destruct (getitem (columns df) name) as [c|] eqn:G.
  - destruct (populated c) eqn:P.
    + apply populated_spec in P as [P1 P2]. split.
      * intros [= <-]. by exists name.
      * intros (n & [= <-] & G' & _). congruence.
    + split; [done|]. intros (n & [= <-] & G' & H1 & H2).
      assert (c = col) as -> by congruence.
      assert (populated col = true) by (by apply populated_spec).
      congruence.
  - split; [done|]. intros (n & [= <-] & G' & _). congruence.
Qed.

Lemma variant_result_None (df : DataFrame) (src : string) :
  variant_result df src = None ↔ rejected df src.
Proof.
  unfold rejected. split.
  - intros H col Hc. apply variant_result_spec in Hc. congruence.
  - intros H. destruct (variant_result df src) as [c|] eqn:E; [|done].
    apply variant_result_spec in E. by destruct (H c).
Qed.

Lemma get_column_loop_unfold (df : DataFrame) (src : string) (rest : list string) :
  get_column_loop df (col_map_upper_of df) (src :: rest)
  = match variant_result df src with
    | Some col => Some (col, src)
    | None => get_column_loop df (col_map_upper_of df) rest
    end.
Proof.
  simpl. unfold variant_result.
  destruct (col_map_upper_of df !! Str.upper src); [|done].
  destruct (getitem (columns df) s); [|done]. by destruct (populated s0).
Qed.

Lemma get_column_loop_Some (df : DataFrame) (srcs : list string)
    (col : Series) (src : string) :
  get_column_loop df (col_map_upper_of df) srcs = Some (col, src)
  ↔ ∃ pre post, srcs = pre ++ src :: post ∧ accepted df src col
                ∧ ∀ s, s ∈ pre → rejected df s.
Proof.
  induction srcs as [|s rest IH].
  - split; [done|]. intros (pre & post & E & _). by destruct pre.
  - rewrite get_column_loop_unfold.
    destruct (variant_result df s) as [c|] eqn:R.
    + split.
      * intros [= <- <-]. exists [], rest. split; [done|].
        split; [by apply variant_result_spec|]. intros ? H. by apply elem_of_nil in H.
      * intros (pre & post & E & A & Hpre). destruct pre as [|p pre]; simpl in E.
        -- injection E as <- <-. apply variant_result_spec in A. congruence.
        -- injection E as <- _. apply variant_result_spec in R.
           destruct (Hpre s (list_elem_of_here _ _) c R).
    + rewrite IH. apply variant_result_None in R. split.
      * intros (pre & post & -> & A & Hpre). exists (s :: pre), post.
        split; [done|]. split; [done|].
        intros x [->|Hx]%elem_of_cons; [done|by apply Hpre].
      * intros (pre & post & E & A & Hpre). destruct pre as [|p pre]; simpl in E.
        -- injection E as <- <-. by destruct (R col).
        -- injection E as <- ->. exists pre, post. split; [done|]. split; [done|].
           intros x Hx. apply Hpre. by apply list_elem_of_further.
Qed.



(* ===================================================================== *)
(** * Properties of the release processor                                 *)
(* ===================================================================== *)

Lemma loop_step_out (df : DataFrame) (cmu : gmap string string) (y : Z)
    (st : LoopState) (target : string) :
  out_df (loop_step df cmu y st target)
  = <[target := fst (process_target df cmu y target)]> (out_df st).
Proof.
  unfold loop_step. destruct (process_target df cmu y target). simpl. reflexivity.
Qed.

Lemma loop_step_reports (df : DataFrame) (cmu : gmap string string) (y : Z)
    (st : LoopState) (target : string) :
  col_reports (loop_step df cmu y st target)
  = <[target := snd (process_target df cmu y target)]> (col_reports st).
Proof.
  unfold loop_step. destruct (process_target df cmu y target). simpl. reflexivity.
Qed.

(** After the loop over a list of targets, a target of the list has the
    column and the report entry that its own pass computed. *)
Lemma loop_fold_lookup (df : DataFrame) (cmu : gmap string string) (y : Z)
    (l : list string) (st : LoopState) (t : string) :
  let st' := fold_left (loop_step df cmu y) l st in
  out_df st' !! t
  = (if decide (t ∈ l) then Some (fst (process_target df cmu y t)) else out_df st !! t)
  ∧ col_reports st' !! t
  = (if decide (t ∈ l) then Some (snd (process_target df cmu y t)) else col_reports st !! t).
Proof.
  revert st. induction l as [|a l IH]; intros st; simpl.
  - destruct (decide (t ∈ [])) as [H|H]; [by apply elem_of_nil in H|].
    split; reflexivity.
  - destruct (IH (loop_step df cmu y st a)) as [IH1 IH2].
    rewrite IH1, IH2, loop_step_out, loop_step_reports.
    destruct (decide (t ∈ l)) as [Hl|Hl].
    + rewrite !decide_True by (by apply list_elem_of_further). split; reflexivity.
    + destruct (decide (a = t)) as [->|Hne].
      * rewrite !decide_True by apply list_elem_of_here.
        rewrite !lookup_insert_eq. split; reflexivity.
      * rewrite !decide_False by (intros [?|?]%elem_of_cons; congruence).
        rewrite !lookup_insert_ne by exact Hne. split; reflexivity.
Qed.

Lemma field_loop_out (df : DataFrame) (cmu : gmap string string) (y : Z) (t : string) :
  t ∈ OUTPUT_SCHEMA →
  out_df (field_loop df cmu y) !! t = Some (fst (process_target df cmu y t)).
Proof.
  intros Ht. unfold field_loop.
  destruct (loop_fold_lookup df cmu y OUTPUT_SCHEMA
              {| out_df := ∅; col_reports := ∅; unmapped_cols := [] |} t) as [-> _].
  by rewrite decide_True.
Qed.

Lemma field_loop_report (df : DataFrame) (cmu : gmap string string) (y : Z) (t : string) :
  col_reports (field_loop df cmu y) !! t
  = if decide (t ∈ OUTPUT_SCHEMA) then Some (snd (process_target df cmu y t)) else None.
Proof.
  unfold field_loop.
  destruct (loop_fold_lookup df cmu y OUTPUT_SCHEMA
              {| out_df := ∅; col_reports := ∅; unmapped_cols := [] |} t) as [_ ->].
  by destruct (decide (t ∈ OUTPUT_SCHEMA)).
Qed.

Lemma select_schema_lookup (out : Table) (t : string) :
  t ∈ OUTPUT_SCHEMA → select_schema out !! t = out !! t.
Proof.
  intros Ht. unfold select_schema. destruct (out !! t) as [c|] eqn:E.
  - by apply map_lookup_filter_Some.
  - apply map_lookup_filter_None. by left.
Qed.

(** A month read from the name of the file is one of 1..12. *)
Lemma extract_month_range (fname : string) (m : Z) :
  snd (extract_year_month fname) = Some m → 1 <= m <= 12.
Proof.
  unfold extract_year_month. cbv zeta. cbn [snd].
  match goal with
  | |- context [List.find ?P month_map] =>
      destruct (List.find P month_map) as [p|] eqn:F; [|intros [=]]
  end.
  cbn [fmap option_fmap option_map]. intros [= <-]. apply find_some in F as [F _].
  unfold month_map in F. cbn [In] in F.
  repeat (destruct F as [<-|F]; [cbn [snd]; lia|]). destruct F.
Qed.

Lemma truthy_month (fname : string) (m : Z) :
  snd (extract_year_month fname) = Some m → truthy (Some m) = true.
Proof.
  intros H%extract_month_range. simpl. destruct (Z.eqb_spec m 0); [lia|done].
Qed.

(** The report entries of a release are those of the loop. *)
Lemma process_frame_reports (fname : string) (df : DataFrame) (t : string) :
  report_columns (snd (process_frame fname df)) !! t
  = if decide (t ∈ OUTPUT_SCHEMA)
    then Some (snd (process_target df (col_map_upper_of df) (fst (infer_year fname df)) t))
    else None.
Proof.
  unfold process_frame. cbv zeta. cbn [snd report_columns]. apply field_loop_report.
Qed.

(** The columns of the table of a release: the locked year, the locked month
    if there is one, and the column of the loop otherwise. *)
Lemma process_frame_out (fname : string) (df : DataFrame) (t : string) :
  t ∈ OUTPUT_SCHEMA →
  fst (process_frame fname df) !! t
  = Some (if decide (t = "PUFSVYYR")
          then replicate (n_rows df) (Some (inject_Z (fst (infer_year fname df))))
          else match snd (extract_year_month fname) with
               | Some m =>
                   if decide (t = "PUFSVYMO")
                   then replicate (n_rows df) (Some (inject_Z m))
                   else fst (process_target df (col_map_upper_of df)
                               (fst (infer_year fname df)) t)
               | None => fst (process_target df (col_map_upper_of df)
                                (fst (infer_year fname df)) t)
               end).
Proof.
  intros Ht. unfold process_frame. cbv zeta. cbn [fst].
  rewrite select_schema_lookup by exact Ht. unfold lock_year_month.
  destruct (snd (extract_year_month fname)) as [m|] eqn:M.
  - rewrite (truthy_month fname m M).
    destruct (decide (t = "PUFSVYYR")) as [->|N1].
    + rewrite lookup_insert_ne by done. by rewrite lookup_insert_eq.
    + destruct (decide (t = "PUFSVYMO")) as [->|N2].
      * by rewrite lookup_insert_eq.
      * rewrite !lookup_insert_ne by done. by apply field_loop_out.
  - destruct (decide (t = "PUFSVYYR")) as [->|N1].
    + by rewrite lookup_insert_eq.
    + rewrite lookup_insert_ne by done. by apply field_loop_out.
Qed.

Lemma process_frame_year (fname : string) (df : DataFrame) :
  report_year (snd (process_frame fname df)) = fst (infer_year fname df).
Proof. unfold process_frame. cbv zeta. cbn [snd report_year]. reflexivity. Qed.

Lemma process_frame_month (fname : string) (df : DataFrame) :
  report_month (snd (process_frame fname df)) = snd (extract_year_month fname).
Proof. unfold process_frame. cbv zeta. cbn [snd report_month]. reflexivity. Qed.

Lemma process_frame_rows (fname : string) (df : DataFrame) :
  rows (snd (process_frame fname df)) = Z.of_nat (n_rows df).
Proof. unfold process_frame. cbv zeta. cbn [snd rows]. reflexivity. Qed.

Lemma schema_has_year : "PUFSVYYR" ∈ OUTPUT_SCHEMA.
Proof. apply list_elem_of_In. vm_compute. tauto. Qed.

Lemma schema_has_month : "PUFSVYMO" ∈ OUTPUT_SCHEMA.
Proof. apply list_elem_of_In. vm_compute. tauto. Qed.

(** C3: in the table of a processed release the year column holds the
    inferred year on every row, whatever the loop resolved for it; if the
    name of the file gives a month, the month column holds it on every row;
    if it gives none, the month of the release is unset and the month column
    is the one the loop produced, without any forced value. *)
Theorem C3_year_month_locked (fname : string) (df : DataFrame) :
  let out := fst (process_frame fname df) in
  let rep := snd (process_frame fname df) in
  let y := fst (infer_year fname df) in
  out !! "PUFSVYYR" = Some (replicate (n_rows df) (Some (inject_Z y)))
  ∧ report_year rep = y
  ∧ report_month rep = snd (extract_year_month fname)
  ∧ (∀ m, snd (extract_year_month fname) = Some m →
       out !! "PUFSVYMO" = Some (replicate (n_rows df) (Some (inject_Z m))))
  ∧ (snd (extract_year_month fname) = None →
       out !! "PUFSVYMO"
       = Some (fst (process_target df (col_map_upper_of df) y "PUFSVYMO"))).
Proof.
  cbv zeta. split; [|split; [|split; [|split]]].
  - rewrite process_frame_out by apply schema_has_year. by rewrite decide_True.
  - apply process_frame_year.
  - apply process_frame_month.
  - intros m Hm. rewrite process_frame_out by apply schema_has_month.
    rewrite decide_False by done. rewrite Hm. by rewrite decide_True.
  - intros Hm. rewrite process_frame_out by apply schema_has_month.
    rewrite decide_False by done. by rewrite Hm.
Qed.

(* ===================================================================== *)
(** * Rounding                                                            *)
(* ===================================================================== *)

Lemma round_half_even_bounds (q : Q) :
  (2 * round_half_even q - 1) * Zpos (Qden q) <= 2 * Qnum q
  ∧ 2 * Qnum q <= (2 * round_half_even q + 1) * Zpos (Qden q).
Proof.
  unfold round_half_even. set (n := Qnum q). set (d := Zpos (Qden q)).
  assert (Hd : 0 < d) by (unfold d; lia).
  pose proof (Z.div_mod n d ltac:(lia)) as Hdiv.
  pose proof (Z.mod_pos_bound n d Hd) as Hmod.
  repeat case_test; destruct (Z.even (n / d)); nia.
Qed.

(** Rounding to the nearest integer moves a number by at most one half. *)
Lemma round_half_even_error (q : Q) :
  (Qabs (inject_Z (round_half_even q) - q) <= 1 # 2)%Q.
Proof.
  apply Qabs_Qle_condition. destruct (round_half_even_bounds q) as [H1 H2].
  destruct q as [n d]. simpl in *.
  set (k := round_half_even (n # d)) in *.
  unfold Qle, Qminus, Qplus, Qopp, inject_Z; simpl. split; lia.
Qed.

(** [round(x, 2)] moves a number by at most half a hundredth. *)
Lemma round2_error (q : Q) : (Qabs (round2 q - q) <= 1 # 200)%Q.
Proof.
  unfold round2. set (k := round_half_even (q * 100)).
  assert (E : (Qred (k # 100) - q == (inject_Z k - q * 100) * (1 # 100))%Q).
  { rewrite Qred_correct, (Qmake_Qdiv k 100). field. }
  rewrite E, Qabs_Qmult.
  change (Qabs (1 # 100)) with (1 # 100)%Q.
  change (1 # 200)%Q with ((1 # 2) * (1 # 100))%Q.
  apply Qmult_le_compat_r; [apply round_half_even_error|done].
Qed.

(** The two percentages of a count and of its complement add up to 100, up
    to the rounding of each. *)
Lemma pct_complement (a n : Z) :
  n ≠ 0 → (Qabs (pct a n + pct (n - a) n - 100) <= 1 # 100)%Q.
Proof.
  intros Hn. unfold pct. destruct (Z.eqb_spec n 0) as [|_]; [done|].
  set (x := (inject_Z a / inject_Z n * 100)%Q).
  set (y := (inject_Z (n - a) / inject_Z n * 100)%Q).
  assert (Hxy : (x + y == 100)%Q).
  { unfold x, y. unfold Z.sub. rewrite inject_Z_plus, inject_Z_opp. field.
    intros H. apply Hn. unfold Qeq in H; simpl in H. lia. }
  assert (E : (round2 x + round2 y - 100 == (round2 x - x) + (round2 y - y))%Q).
  { rewrite <- Hxy. ring. }
  rewrite E. eapply Qle_trans; [apply Qabs_triangle|].
  apply Qle_trans with ((1 # 200) + (1 # 200))%Q.
  - apply Qplus_le_compat; apply round2_error.
  - by vm_compute.
Qed.

(* ===================================================================== *)
(** * Counts of non-missing values                                        *)
(* ===================================================================== *)

Lemma notna_count_nonneg (col : NumSeries) : 0 <= notna_count col.
Proof. unfold notna_count. lia. Qed.

Lemma notna_count_app (a b : NumSeries) :
  notna_count (a ++ b) = notna_count a + notna_count b.
Proof. unfold notna_count. rewrite List.filter_app, length_app. lia. Qed.

Lemma notna_count_cons (v : option Q) (col : NumSeries) :
  notna_count (v :: col) = match v with Some _ => 1 | None => 0 end + notna_count col.
Proof. unfold notna_count. destruct v; simpl; lia. Qed.

Lemma notna_count_missing (n : nat) : notna_count (replicate n None) = 0.
Proof. induction n as [|n IH]; [done|]. simpl. by rewrite notna_count_cons, IH. Qed.

Lemma notna_count_filled (n : nat) (q : Q) :
  notna_count (replicate n (Some q)) = Z.of_nat n.
Proof.
  induction n as [|n IH]; [done|].
  change (replicate (S n) (Some q)) with (Some q :: replicate n (Some q)).
  rewrite notna_count_cons, IH. lia.
Qed.

(** A map that keeps missing cells missing cannot raise the count. *)
Lemma notna_count_map_le (f : option Q → option Q) (col : NumSeries) :
  f None = None → notna_count (map f col) <= notna_count col.
Proof.
  intros Hf. induction col as [|v col IH]; [done|].
  simpl. rewrite !notna_count_cons. destruct v as [q|].
  - destruct (f (Some q)); lia.
  - rewrite Hf. lia.
Qed.

(** The entry of a target that the resolver does not match. *)
Lemma process_target_unmapped (df : DataFrame) (y : Z) (target : string) :
  get_column df target (col_map_upper_of df) = None →
  process_target df (col_map_upper_of df) y target
  = (replicate (n_rows df) None,
     {| status := UNMAPPED; source_col := None; translated := false;
        raw_nonnull_count := 0; final_nonnull_count := 0;
        null_count := Z.of_nat (n_rows df);
        retention_pct := 0; null_pct := 100; translation_loss := 0;
        candidates_searched := Some (candidates target) |}).
Proof. intros H. unfold process_target. by rewrite H. Qed.

(** The status of a report entry tells whether the resolver matched. *)
Lemma process_target_status (df : DataFrame) (y : Z) (target : string) :
  status (snd (process_target df (col_map_upper_of df) y target)) = UNMAPPED
  ↔ get_column df target (col_map_upper_of df) = None.
Proof.
  unfold process_target.
  destruct (get_column df target (col_map_upper_of df)) as [[col src]|]; [|done].
  destruct (TRANSLATION_MAP !! target); simpl; split; done.
Qed.

(** The final count of an entry is the count of the column of the loop. *)
Lemma process_target_final (df : DataFrame) (y : Z) (target : string) :
  final_nonnull_count (snd (process_target df (col_map_upper_of df) y target))
  = notna_count (fst (process_target df (col_map_upper_of df) y target)).
Proof.
  unfold process_target.
  destruct (get_column df target (col_map_upper_of df)) as [[col src]|].
  - by destruct (TRANSLATION_MAP !! target).
  - simpl. by rewrite notna_count_missing.
Qed.

(** C9: a translator returns missing on a missing input, so a missing
    cleaned cell stays missing; hence in the entry of a translated field the
    translation loss is the cleaned count minus the translated count and is
    not negative, and in the entry of a field without translator (and of an
    unmatched field) it is 0. *)
Theorem C9_translation_loss (fname : string) (df : DataFrame) (target : string)
    (r : ColReport) :
  report_columns (snd (process_frame fname df)) !! target = Some r →
  let y := fst (infer_year fname df) in
  (∀ t year, translate t None year = None)
  ∧ (∀ t col src,
       TRANSLATION_MAP !! target = Some t →
       get_column df target (col_map_upper_of df) = Some (col, src) →
       let cleaned := clean_column col in
       let translated_col := map (fun x => inject_Z <$> translate t x y) cleaned in
       (∀ i, cleaned !! i = Some None → translated_col !! i = Some None)
       ∧ status r = MAPPED_TRANSLATED
       ∧ final_nonnull_count r = notna_count translated_col
       ∧ translation_loss r = notna_count cleaned - notna_count translated_col
       ∧ 0 <= translation_loss r)
  ∧ (TRANSLATION_MAP !! target = None → translation_loss r = 0)
  ∧ (get_column df target (col_map_upper_of df) = None → translation_loss r = 0).
Proof.
  intros Hr y. rewrite process_frame_reports in Hr.
  destruct (decide (target ∈ OUTPUT_SCHEMA)); [|done]. injection Hr as <-.
  split; [apply translate_missing|]. split; [|split].
  - intros t col src Ht Hg cleaned translated_col.
    split.
    { intros i Hi. unfold translated_col. rewrite list_lookup_fmap, Hi. simpl.
      by rewrite translate_missing. }
    unfold process_target. rewrite Hg, Ht. simpl.
    fold y cleaned translated_col. split; [done|]. split; [done|]. split; [done|].
    pose proof (notna_count_map_le (fun x => inject_Z <$> translate t x y) cleaned) as Hle.
    fold translated_col in Hle.
    assert (notna_count translated_col <= notna_count cleaned); [|lia].
    apply Hle. by rewrite translate_missing.
  - intros Ht. unfold process_target. rewrite Ht.
    by destruct (get_column df target (col_map_upper_of df)) as [[col src]|].
  - intros Hg. by rewrite process_target_unmapped.
Qed.

(* ===================================================================== *)
(** * Invariants of the report entries                                    *)
(* ===================================================================== *)

Lemma getitem_elem (cols : list (string * Series)) (name : string) (col : Series) :
  getitem cols name = Some col → (name, col) ∈ cols.
Proof.
  induction cols as [|[n s] cols IH]; simpl; [done|].
  destruct (String.eqb_spec n name) as [->|_].
  - intros [= ->]. apply list_elem_of_here.
  - intros H. apply list_elem_of_further. by apply IH.
Qed.

Lemma wf_column_length (df : DataFrame) (name : string) (col : Series) :
  df_wf df = true → getitem (columns df) name = Some col →
  length (values col) = n_rows df.
Proof.
  unfold df_wf. rewrite forallb_forall. intros Hwf Hg.
  apply getitem_elem, list_elem_of_In, Hwf in Hg. simpl in Hg.
  by apply Nat.eqb_eq.
Qed.

(** A matched column has one cell per row of the release, and the release
    has at least one row. *)
Lemma get_column_rows (df : DataFrame) (target : string) (col : Series) (src : string) :
  df_wf df = true →
  get_column df target (col_map_upper_of df) = Some (col, src) →
  length (values col) = n_rows df ∧ (0 < n_rows df)%nat.
Proof.
  intros Hwf Hg. apply get_column_loop_Some in Hg as (_ & _ & _ & Hacc & _).
  destruct Hacc as (name & _ & Hget & (c & Hc & _) & _).
  pose proof (wf_column_length df name col Hwf Hget) as Hlen.
  split; [done|]. rewrite <- Hlen.
  destruct (values col); [by apply elem_of_nil in Hc|simpl; lia].
Qed.

(** C10: in every entry of the report of a release the final count and the
    null count add up to the number of rows, the retention and null
    percentages add up to 100 within one hundredth, and an UNMAPPED entry
    has raw count 0, final count 0, retention 0.0, null percentage 100.0 and
    translation loss 0. *)
Theorem C10_report_entry_invariants (fname : string) (df : DataFrame)
    (target : string) (r : ColReport) :
  df_wf df = true →
  report_columns (snd (process_frame fname df)) !! target = Some r →
  final_nonnull_count r + null_count r = rows (snd (process_frame fname df))
  ∧ (Qabs (retention_pct r + null_pct r - 100) <= 1 # 100)%Q
  ∧ (status r = UNMAPPED →
       raw_nonnull_count r = 0 ∧ final_nonnull_count r = 0
       ∧ retention_pct r = 0%Q ∧ null_pct r = 100%Q ∧ translation_loss r = 0).
Proof.
  intros Hwf Hr. rewrite process_frame_reports in Hr.
  destruct (decide (target ∈ OUTPUT_SCHEMA)); [|done]. injection Hr as <-.
  rewrite process_frame_rows.
  set (y := fst (infer_year fname df)).
  destruct (get_column df target (col_map_upper_of df)) as [[col src]|] eqn:Hg.
  - destruct (get_column_rows df target col src Hwf Hg) as [_ Hpos].
    assert (Hn : Z.of_nat (n_rows df) ≠ 0) by lia.
    unfold process_target. rewrite Hg.
    destruct (TRANSLATION_MAP !! target);
      cbn [snd final_nonnull_count null_count retention_pct null_pct status];
      (split; [lia|]; split; [by apply pct_complement|intros [=]]).
  - rewrite process_target_unmapped by done.
    cbn [snd final_nonnull_count null_count retention_pct null_pct status
         raw_nonnull_count translation_loss].
    split; [lia|]. split; [by vm_compute|]. intros _. repeat split; reflexivity.
Qed.

(* ===================================================================== *)
(** * Year inference                                                      *)
(* ===================================================================== *)

(** One pass of the fallback loop, when the year is not set to a non-zero
    value yet. *)
Lemma year_from_columns_cons (df : DataFrame) (c : string) (rest : list string)
    (year : option Z) :
  truthy year = false →
  year_from_columns df (col_map_upper_of df) (c :: rest) year
  = match column_year df c with
    | Some v =>
        if v =? 0 then year_from_columns df (col_map_upper_of df) rest (Some v)
        else Some v
    | None => year_from_columns df (col_map_upper_of df) rest year
    end.
Proof.
  intros Hy. simpl. unfold column_year. rewrite col_map_upper_lookup.
  destruct (variant_name df c) as [name|]; simpl; [|done].
  destruct (getitem (columns df) name) as [s|]; simpl.
  - destruct (mode_first (clean_column s)) as [m|]; simpl.
    + by destruct (int_of_float m =? 0).
    + by rewrite Hy.
  - by rewrite Hy.
Qed.



(** With zero modes only, the year is 0. *)
Lemma year_from_columns_zero (df : DataFrame) (cols : list string) (year : option Z) :
  truthy year = false →
  (∀ c, c ∈ cols → no_year df c) →
  year = Some 0 ∨ (∃ c, c ∈ cols ∧ column_year df c = Some 0) →
  year_from_columns df (col_map_upper_of df) cols year = Some 0.
Proof.
  revert year. induction cols as [|c cols IH]; intros year Hy Hall Hex.
  - destruct Hex as [->|(c & Hc & _)]; [done|by apply elem_of_nil in Hc].
  - rewrite year_from_columns_cons by done.
    assert (Hrest : ∀ c', c' ∈ cols → no_year df c').
    { intros c' Hc'. by apply Hall, list_elem_of_further. }
    destruct (Hall c (list_elem_of_here _ _)) as [Hc | Hc]; rewrite Hc; simpl.
    + apply IH; try done. destruct Hex as [->|(c' & Hc' & Hz)]; [by left|].
      apply elem_of_cons in Hc' as [->|Hc']; [congruence|]. right. by exists c'.
    + apply IH; try done. by left.
Qed.

(** The log and the result of [process_file] on a readable file. *)
Lemma process_file_readable (f : InputFile) (df : DataFrame) (log : list LogLine) :
  f_read f = inl df →
  process_file f log
  = (Some (process_frame (f_name f) df),
     (log ++ [LogFile (f_name f)])
       ++ (if snd (infer_year (f_name f) df) then [LogYearDefault] else [])
       ++ [LogRelease (fst (infer_year (f_name f) df))
             (snd (extract_year_month (f_name f))) (n_rows df)]).
Proof.
  intros Hr. unfold process_file. rewrite Hr.
  destruct (infer_year (f_name f) df) as [y [|]]; simpl; [|done].
  by rewrite <- !app_assoc.
Qed.


Lemma column_year_absent (df : DataFrame) (c : string) :
  variant_name df c = None → column_year df c = None.
Proof. intros Hn. unfold column_year. by rewrite Hn. Qed.





(* ===================================================================== *)
(** * Properties of the coverage aggregator                               *)
(* ===================================================================== *)












(* ===================================================================== *)
(** * Properties of the run                                               *)
(* ===================================================================== *)

Lemma process_file_unreadable (f : InputFile) (e : string) (log : list LogLine) :
  f_read f = inr e →
  process_file f log = (None, (log ++ [LogFile (f_name f)]) ++ [LogReadError e]).
Proof. intros H. unfold process_file. by rewrite H. Qed.

(** One pass of the loop over the files, apart from the log. *)
Lemma run_file_outputs (n : nat) (st : RunState) (i : nat) (f : InputFile) :
  let st' := run_file n st i f in
  all_file_reports st' = all_file_reports st ++ option_list (snd <$> released f)
  ∧ all_parquet_files st' = all_parquet_files st ++ option_list (parquet_entry f)
  ∧ errors st' = errors st ++ option_list (fatal_error f)
  ∧ total_rows st' = total_rows st + from_option (fun r => rows (snd r)) 0 (released f).
Proof.
  unfold run_file, parquet_entry, released, fatal_error.
  destruct (f_read f) as [df|e] eqn:R.
  - rewrite (process_file_readable f df _ R).
    destruct (process_frame (f_name f) df) as [out rep] eqn:P.
    destruct (f_write_error f); simpl; rewrite ?app_nil_r, ?Z.add_0_r; done.
  - rewrite (process_file_unreadable f e _ R). simpl.
    by rewrite !app_nil_r, Z.add_0_r.
Qed.




(** The outputs of the loop over the files: what each file releases, in the
    order of the files. *)
Lemma run_files_outputs (n : nat) (st : RunState) (i : nat) (files : list InputFile) :
  let st' := run_files n st i files in
  all_file_reports st' = all_file_reports st ++ map snd (omap released files)
  ∧ all_parquet_files st' = all_parquet_files st ++ omap parquet_entry files
  ∧ errors st' = errors st ++ omap fatal_error files
  ∧ total_rows st'
    = total_rows st + Zsum (map (fun r => rows (snd r)) (omap released files)).
Proof.
  revert st i. induction files as [|f files IH]; intros st i; simpl.
  - by rewrite !app_nil_r, Z.add_0_r.
  - destruct (IH (run_file n st i f) (S i)) as (I1 & I2 & I3 & I4).
    destruct (run_file_outputs n st i f) as (F1 & F2 & F3 & F4).
    rewrite I1, I2, I3, I4, F1, F2, F3, F4, <- !app_assoc.
    cbn [omap list_omap].
    unfold parquet_entry at 1 3.
    unfold Zsum.
    destruct (released f) as [r|]; destruct (fatal_error f) as [e|];
      cbn [fmap option_fmap option_map option_list from_option map foldr app];
      (split; [reflexivity|]; split; [reflexivity|]; split; [reflexivity|]).
    all: change (list_omap InputFile (Table * FileReport)%type released files)
           with (omap released files); lia.
Qed.


(** The tables of the parquet files are those that the files release. *)
Lemma parquet_tables (files : list InputFile) :
  map snd (omap parquet_entry files) = map fst (omap released files).
Proof.
  induction files as [|f files IH]; [reflexivity|].
  cbn [omap list_omap]. unfold parquet_entry at 1.
  destruct (released f) as [r|]; cbn [fmap option_fmap option_map map fst snd];
    [f_equal|]; exact IH.
Qed.


(** The outputs of a whole run. *)
Lemma process_all_batched_outputs (files : list InputFile) (batch_size : nat) :
  let st := final_state (process_all_batched files batch_size) in
  all_file_reports st = map snd (omap released files)
  ∧ all_parquet_files st = omap parquet_entry files
  ∧ errors st = omap fatal_error files
  ∧ total_rows st = Zsum (map (fun r => rows (snd r)) (omap released files)).
Proof.
  unfold process_all_batched; simpl.
  destruct (run_files_outputs (length files)
              {| log_messages := []; all_file_reports := []; all_parquet_files := [];
                 errors := []; total_rows := 0 |} 1 files) as (H1 & H2 & H3 & H4).
  simpl in *. by rewrite H1, H2, H3, H4.
Qed.

(** A run is determined, apart from its log, by what its files release. *)
Lemma process_all_batched_summary (files : list InputFile) (batch_size : nat) :
  let r := process_all_batched files batch_size in
  col_summary r
  = match all_file_reports (final_state r) with
    | [] => ∅
    | _ :: _ => build_column_summary (all_file_reports (final_state r))
    end
  ∧ combined_table r
    = combine_batches (length (all_parquet_files (final_state r))) batch_size
        (map snd (all_parquet_files (final_state r))) None.
Proof. unfold process_all_batched; simpl. by rewrite length_map. Qed.



(* ===================================================================== *)
(** * The combined table and the reported counts                          *)
(* ===================================================================== *)

Lemma column_of_concat2 (f : string) (a b : Table) :
  column_of f (concat2 a b) = column_of f a ++ column_of f b.
Proof.
  unfold column_of, concat2. rewrite lookup_union_with.
  destruct (a !! f), (b !! f); simpl; by rewrite ?app_nil_r.
Qed.

Lemma column_of_fold_concat2 (f : string) (ts : list Table) (t : Table) :
  column_of f (fold_left concat2 ts t)
  = column_of f t ++ concat (map (column_of f) ts).
Proof.
  revert t. induction ts as [|a ts IH]; intros t; simpl.
  - by rewrite app_nil_r.
  - by rewrite IH, column_of_concat2, <- app_assoc.
Qed.

Lemma column_of_pd_concat (f : string) (ts : list Table) :
  column_of f (pd_concat ts) = concat (map (column_of f) ts).
Proof.
  destruct ts as [|t ts]; [done|]. simpl. apply column_of_fold_concat2.
Qed.

(** Combining in batches gives, for each field, the columns of the tables
    one after the other, whatever the size of the batches. *)
Lemma combine_batches_column (f : string) (fuel batch_size : nat)
    (rest : list Table) (combined : option Table) :
  (0 < batch_size)%nat → (length rest <= fuel)%nat →
  from_option (column_of f) [] (combine_batches fuel batch_size rest combined)
  = from_option (column_of f) [] combined ++ concat (map (column_of f) rest).
Proof.
  intros Hb. revert rest combined.
  induction fuel as [|fuel IH]; intros rest combined Hlen.
  - destruct rest; [|simpl in Hlen; lia]. simpl. by rewrite app_nil_r.
  - destruct rest as [|t rest]; [simpl; by rewrite app_nil_r|].
    cbn [combine_batches]. rewrite IH.
    + cbn [from_option].
      assert (Hnew : ∀ c : Table,
                 column_of f c = concat (map (column_of f) (take batch_size (t :: rest))) →
                 column_of f c ++ concat (map (column_of f) (drop batch_size (t :: rest)))
                 = concat (map (column_of f) (t :: rest))).
      { intros c ->. rewrite <- concat_app, <- map_app. by rewrite take_drop. }
      destruct combined as [existing|].
      * cbn [from_option pd_concat fold_left].
        rewrite column_of_concat2, <- app_assoc. f_equal.
        apply Hnew, column_of_pd_concat.
      * cbn [from_option app]. apply Hnew, column_of_pd_concat.
    + rewrite length_drop. simpl in *. lia.
Qed.

Lemma combine_batches_some (fuel batch_size : nat) (rest : list Table)
    (combined : option Table) :
  is_Some combined → is_Some (combine_batches fuel batch_size rest combined).
Proof.
  revert rest combined. induction fuel as [|fuel IH]; intros rest combined H; [done|].
  destruct rest; [done|]. cbn [combine_batches]. apply IH. by eexists.
Qed.

(** The non-missing cells of a field in the table of a release: the number
    of rows if the field is locked, the reported final count otherwise. *)
Lemma process_frame_count (fname : string) (df : DataFrame) (f : string) :
  f ∈ OUTPUT_SCHEMA →
  let out := fst (process_frame fname df) in
  let rep := snd (process_frame fname df) in
  notna_count (column_of f out)
  = if locked f rep then rows rep else reported_count f rep.
Proof.
  intros Hf out rep. unfold column_of, out. rewrite process_frame_out by exact Hf.
  unfold locked, reported_count, rep. rewrite process_frame_reports.
  rewrite (decide_True _ _ Hf).
  rewrite process_frame_month, process_frame_rows.
  cbn [default from_option].
  destruct (decide (f = "PUFSVYYR")) as [->|N1].
  - rewrite bool_decide_eq_true_2 by reflexivity. cbn [orb].
    apply notna_count_filled.
  - rewrite (bool_decide_eq_false_2 (f = "PUFSVYYR")) by exact N1. cbn [orb].
    destruct (snd (extract_year_month fname)) as [m|] eqn:M.
    + rewrite (truthy_month fname m M).
      destruct (decide (f = "PUFSVYMO")) as [->|N2].
      * rewrite bool_decide_eq_true_2 by reflexivity. cbn [andb].
        apply notna_count_filled.
      * rewrite bool_decide_eq_false_2 by exact N2. cbn [andb].
        symmetry. apply process_target_final.
    + rewrite andb_false_r. symmetry. apply process_target_final.
Qed.

Lemma notna_count_concat (cols : list NumSeries) :
  notna_count (concat cols) = Zsum (map notna_count cols).
Proof.
  induction cols as [|c cols IH]; [done|]. simpl.
  by rewrite notna_count_app, IH.
Qed.

Lemma released_count (f : string) (files : list InputFile) :
  f ∈ OUTPUT_SCHEMA →
  map notna_count (map (column_of f) (map fst (omap released files)))
  = map (fun rep => if locked f rep then rows rep else reported_count f rep)
      (map snd (omap released files)).
Proof.
  intros Hf. induction files as [|g files IH]; [reflexivity|].
  cbn [omap list_omap]. destruct (released g) as [r|] eqn:R; [|exact IH].
  cbn [map]. f_equal; [|exact IH].
  unfold released in R. destruct (f_read g) as [df|]; [|discriminate].
  destruct (f_write_error g); [discriminate|]. injection R as <-.
  apply process_frame_count, Hf.
Qed.

(** The count of a field in the combined table, release by release. *)
Lemma combined_column_count (files : list InputFile) (batch_size : nat)
    (f : string) (T : Table) :
  (0 < batch_size)%nat → f ∈ OUTPUT_SCHEMA →
  combined_table (process_all_batched files batch_size) = Some T →
  notna_count (column_of f T)
  = Zsum (map (fun rep => if locked f rep then rows rep else reported_count f rep)
            (all_file_reports (final_state (process_all_batched files batch_size)))).
Proof.
  intros Hb Hf HT.
  destruct (process_all_batched_outputs files batch_size) as (A1 & A2 & _ & _).
  destruct (process_all_batched_summary files batch_size) as [_ C].
  rewrite A1. rewrite A2 in C.
  pose proof (combine_batches_column f (length (omap parquet_entry files)) batch_size
                (map snd (omap parquet_entry files)) None Hb) as Hcol.
  rewrite <- C, HT in Hcol. cbn [from_option app] in Hcol.
  rewrite Hcol by (rewrite length_map; reflexivity).
  rewrite notna_count_concat, parquet_tables. f_equal.
  apply released_count, Hf.
Qed.

(** A run that releases a file has a combined table. *)
Lemma combined_table_is_Some (files : list InputFile) (batch_size : nat)
    (g : InputFile) :
  g ∈ files → is_Some (released g) →
  is_Some (combined_table (process_all_batched files batch_size)).
Proof.
  intros Hg [r Hr].
  destruct (process_all_batched_outputs files batch_size) as (_ & A2 & _ & _).
  destruct (process_all_batched_summary files batch_size) as [_ ->].
  rewrite A2.
  assert (Hin : (Str.stem (f_name g) +:+ "_harmonized.parquet", fst r)
                ∈ omap parquet_entry files).
  { apply list_elem_of_omap. exists g. split; [exact Hg|].
    unfold parquet_entry. rewrite Hr. reflexivity. }
  destruct (omap parquet_entry files) as [|e es]; [by apply elem_of_nil in Hin|].
  cbn [length map combine_batches]. apply combine_batches_some. by eexists.
Qed.

(** C1 (amended): in the concatenation of the tables of all processed
    releases, the number of non-missing cells of a field is the sum over the
    processed releases of the reported [final_nonnull_count], except that a
    release counts with its number of rows for the year field, and for the
    month field when the release has a month, since these columns are set
    after the diagnostics are taken.  For every other field the count is the
    plain sum of the reported [final_nonnull_count]. *)
Theorem C1_combined_counts (files : list InputFile) (batch_size : nat)
    (f : string) (T : Table) :
  (0 < batch_size)%nat → f ∈ OUTPUT_SCHEMA →
  let r := process_all_batched files batch_size in
  combined_table r = Some T →
  notna_count (column_of f T)
  = Zsum (map (fun rep => if locked f rep then rows rep else reported_count f rep)
            (all_file_reports (final_state r)))
  ∧ (f ≠ "PUFSVYYR" → f ≠ "PUFSVYMO" →
     notna_count (column_of f T)
     = Zsum (map (reported_count f) (all_file_reports (final_state r)))).
Proof.
  intros Hb Hf r HT. subst r.
  pose proof (combined_column_count files batch_size f T Hb Hf HT) as Hcount.
  split; [exact Hcount|]. intros N1 N2. rewrite Hcount. f_equal.
  apply map_ext. intros rep. unfold locked.
  rewrite !bool_decide_eq_false_2 by assumption. reflexivity.
Qed.

End Pipeline.

(* ===================================================================== *)
(** * The theorems on the sample releases                                 *)
(* ===================================================================== *)

Lemma schema_member (f : string) :
  bool_decide (f ∈ OUTPUT_SCHEMA) = true → f ∈ OUTPUT_SCHEMA.
Proof. apply bool_decide_eq_true. Qed.

(** The run over the sample files, as the code computes it. *)
Example sample_run_reports :
  map (fun rep => (file rep, report_year rep, report_month rep, rows rep))
    (all_file_reports (final_state (process_all_batched parse_digits sample_files 2)))
  = [("LFS_jan2009.csv", 2009, Some 1, 5); ("LFS_2019.csv", 2019, None, 2);
     ("survey.csv", 2020, None, 2)].
Proof. vm_compute. reflexivity. Qed.

(** The log of that run: the unreadable file leaves its name and the text of
    its error, and the file without a year the warning. *)
Example sample_run_log :
  log_messages (final_state (process_all_batched parse_digits sample_files 2))
  = [LogIndex 1 4; LogFile "LFS_jan2009.csv"; LogRelease 2009 (Some 1) 5;
     LogIndex 2 4; LogFile "broken.csv"; LogReadError "No columns to parse from file";
     LogIndex 3 4; LogFile "LFS_2019.csv"; LogRelease 2019 None 2;
     LogIndex 4 4; LogFile "survey.csv"; LogYearDefault; LogRelease 2020 None 2].
Proof. vm_compute. reflexivity. Qed.

(** A placeholder column without values is passed over: the household number
    comes from the second variant, with a retention of 80 percent. *)
Example resolver_skips_placeholder :
  get_column sample_df "PUFHHNUM" (col_map_upper_of sample_df)
  = Some (mkSeries false [Num 11; Num 12; NA; Num 14; Num 15], "HHNUM")
  ∧ (retention_pct <$>
       report_columns (snd (process_frame parse_digits "LFS_jan2009.csv" sample_df))
         !! "PUFHHNUM") = Some 80%Q.
Proof. vm_compute. split; reflexivity. Qed.


Lemma year_in_schema : "PUFSVYYR" ∈ OUTPUT_SCHEMA.
Proof. apply schema_member. vm_compute. reflexivity. Qed.

Lemma mstat_in_schema : "PUFC06_MSTAT" ∈ OUTPUT_SCHEMA.
Proof. apply schema_member. vm_compute. reflexivity. Qed.

Lemma sex_in_schema : "PUFC04_SEX" ∈ OUTPUT_SCHEMA.
Proof. apply schema_member. vm_compute. reflexivity. Qed.


Lemma file_2019_released : is_Some (released parse_digits file_2019).
Proof. exists (process_frame parse_digits "LFS_2019.csv" small_df). reflexivity. Qed.

Lemma file_2019_reported_years :
  Zsum (map (reported_count "PUFSVYYR")
          (all_file_reports (final_state (process_all_batched parse_digits [file_2019] 1))))
  = 0.
Proof. vm_compute. reflexivity. Qed.

Lemma file_2019_filled_years :
  Zsum (map (fun rep => if locked "PUFSVYYR" rep then rows rep
                        else reported_count "PUFSVYYR" rep)
          (all_file_reports (final_state (process_all_batched parse_digits [file_2019] 1))))
  = 2.
Proof. vm_compute. reflexivity. Qed.

Lemma file_2019_year_column (T : Table) :
  combined_table (process_all_batched parse_digits [file_2019] 1) = Some T →
  notna_count (column_of "PUFSVYYR" T) = 2.
Proof.
  intros E.
  rewrite (combined_column_count parse_digits [file_2019] 1 "PUFSVYYR" T
             ltac:(lia) year_in_schema E).
  exact file_2019_filled_years.
Qed.

(** C1 as stated fails: the year column of a release is filled on every row
    although the diagnostics report no value for it. *)
Lemma C1_counterexample :
  ¬ (∀ (files : list InputFile) (batch_size : nat) (f : string) (T : Table),
        (0 < batch_size)%nat → f ∈ OUTPUT_SCHEMA →
        combined_table (process_all_batched parse_digits files batch_size) = Some T →
        notna_count (column_of f T)
        = Zsum (map (reported_count f)
                  (all_file_reports
                     (final_state (process_all_batched parse_digits files batch_size))))).
Proof.
  intros H.
  destruct (combined_table_is_Some parse_digits [file_2019] 1 file_2019
              (list_elem_of_here _ _) file_2019_released) as [T E].
  pose proof (H [file_2019] 1%nat "PUFSVYYR" T ltac:(lia) year_in_schema E) as H1.
  rewrite (file_2019_year_column T E), file_2019_reported_years in H1.
  discriminate.
Qed.

Lemma file_2019_in_sample : file_2019 ∈ sample_files.
Proof. unfold sample_files. do 2 apply list_elem_of_further. apply list_elem_of_here. Qed.

Lemma C1_combined_counts_witness :
  (0 < 2)%nat ∧ "PUFC06_MSTAT" ∈ OUTPUT_SCHEMA
  ∧ ∃ T, combined_table (process_all_batched parse_digits sample_files 2) = Some T
         ∧ notna_count (column_of "PUFC06_MSTAT" T)
           = Zsum (map (reported_count "PUFC06_MSTAT")
                     (all_file_reports
                        (final_state (process_all_batched parse_digits sample_files 2)))).
Proof.
  split; [lia|]. split; [exact mstat_in_schema|].
  destruct (combined_table_is_Some parse_digits sample_files 2 file_2019
              file_2019_in_sample file_2019_released) as [T E].
  exists T. split; [exact E|].
  refine (proj2 (C1_combined_counts parse_digits sample_files 2 "PUFC06_MSTAT" T
                   _ mstat_in_schema E) _ _); [lia|discriminate|discriminate].
Defined.














Lemma sample_mstat_column :
  get_column sample_df "PUFC06_MSTAT" (col_map_upper_of sample_df)
  = Some (mkSeries false [Num 1; Num 6; Num 2; NA; Num 5], "C08_MSTAT").
Proof. vm_compute. reflexivity. Qed.

Lemma mstat_translator : TRANSLATION_MAP !! "PUFC06_MSTAT" = Some T_mstat.
Proof. vm_compute. reflexivity. Qed.

Lemma sample_entry (target : string) :
  target ∈ OUTPUT_SCHEMA →
  report_columns (snd (process_frame parse_digits "LFS_jan2009.csv" sample_df)) !! target
  = Some (snd (process_target parse_digits sample_df (col_map_upper_of sample_df)
                 (fst (infer_year parse_digits "LFS_jan2009.csv" sample_df)) target)).
Proof. intros H. rewrite process_frame_reports. apply decide_True, H. Qed.

Lemma C9_translation_loss_witness :
  ∃ r, report_columns (snd (process_frame parse_digits "LFS_jan2009.csv" sample_df))
         !! "PUFC06_MSTAT" = Some r
       ∧ status r = MAPPED_TRANSLATED ∧ 0 <= translation_loss r.
Proof.
  eexists. split; [exact (sample_entry "PUFC06_MSTAT" mstat_in_schema)|].
  destruct (C9_translation_loss parse_digits "LFS_jan2009.csv" sample_df
              "PUFC06_MSTAT" _ (sample_entry "PUFC06_MSTAT" mstat_in_schema))
    as (_ & Ht & _).
  destruct (Ht T_mstat _ _ mstat_translator sample_mstat_column)
    as (_ & H1 & _ & _ & H2).
  split; [exact H1|exact H2].
Defined.

Lemma sample_df_wf : df_wf sample_df = true.
Proof. vm_compute. reflexivity. Qed.

Lemma C10_report_entry_invariants_witness :
  df_wf sample_df = true
  ∧ ∃ r, report_columns (snd (process_frame parse_digits "LFS_jan2009.csv" sample_df))
           !! "PUFC04_SEX" = Some r
         ∧ final_nonnull_count r + null_count r
           = rows (snd (process_frame parse_digits "LFS_jan2009.csv" sample_df))
         ∧ (Qabs (retention_pct r + null_pct r - 100) <= 1 # 100)%Q.
Proof.
  split; [exact sample_df_wf|].
  eexists. split; [exact (sample_entry "PUFC04_SEX" sex_in_schema)|].
  destruct (C10_report_entry_invariants parse_digits "LFS_jan2009.csv" sample_df
              "PUFC04_SEX" _ sample_df_wf (sample_entry "PUFC04_SEX" sex_in_schema))
    as (H1 & H2 & _).
  split; [exact H1|exact H2].
Defined.
